(** * The entity extraction pipeline of [app.py]

    A shallow embedding of [WebSearcher.search],
    [LLMProcessor.extract_information] and
    [DataProcessor.process_entities], together with the parts of Python,
    [requests], the Groq client and Streamlit that these three methods
    touch, and the properties of the pipeline proved on this embedding.

    Conventions.
    - A Python [str] is a [string]; each character stands for one code
      point below 256.
    - A Python [int] is a [Z]; the quotient of two ints (a float in
      Python) is kept as the exact rational in [Q].
    - Everything the program does to the outside (progress bar, HTTP
      request, sidebar message, completion request, sleep) is appended to
      a [History], in the order in which it happens.  What the outside
      answers is a function of the history so far and of the request. *)

From Stdlib Require Import String Ascii List ZArith QArith Bool Lia.
From Stdlib Require Import DecimalString.
Import ListNotations.

Set Warnings "-register-all".

Local Open Scope string_scope.
Local Open Scope Z_scope.

(** ** Python values and exceptions *)

Module Py.

(** The exception classes that occur.  [RequestException] stands for
    [requests.exceptions.RequestException] and all its subclasses
    (ConnectionError, Timeout, HTTPError, JSONDecodeError, ...): the only
    test the program makes is [except RequestException].  Every class
    here derives from [Exception]. *)
Inductive ExcClass : Set :=
| RequestException
| KeyError
| IndexError
| ValueError
| TypeError
| AttributeError
| ZeroDivisionError
| APIError.

(** An exception: its class and [str(e)]. *)
Record Exc : Set := mkExc { exc_class : ExcClass; exc_text : string }.

(** How a call ends.  [NotModelled] marks the places where this
    embedding stops describing Python (see [str_format]); it is not an
    exception and no handler catches it. *)
Inductive Outcome (A : Type) : Type :=
| Returns (a : A)
| Raises (e : Exc)
| NotModelled.
Arguments Returns {A} a.
Arguments Raises {A} e.
Arguments NotModelled {A}.

Definition is_request_exception (e : Exc) : bool :=
  match exc_class e with RequestException => true | _ => false end.

(** [except Exception]: every exception of [ExcClass].  What does not
    derive from [Exception] (KeyboardInterrupt, SystemExit) is not
    represented. *)
Definition is_exception (e : Exc) : bool := true.

Definition newline : string := String (ascii_of_nat 10) EmptyString.

(** [len(l)] *)
Definition len {A} (l : list A) : Z := Z.of_nat (List.length l).

(** Truth value of a [str]: non-empty. *)
Definition truthy (s : string) : bool :=
  match s with EmptyString => false | String _ _ => true end.

(** Decimal text of a non-negative int. *)
Definition str_of_int (n : Z) : string :=
  NilZero.string_of_uint (N.to_uint (Z.to_N n)).

(** *** [str.strip()] *)

(** [str.isspace] on one code point below 256: TAB, LF, VT, FF, CR,
    FS, GS, RS, US, space, NEL and NBSP. *)
Definition isspace (c : ascii) : bool :=
  let n := nat_of_ascii c in
  ((9 <=? n) && (n <=? 13) || (28 <=? n) && (n <=? 32)
   || (n =? 133) || (n =? 160))%nat.

Fixpoint lstrip (s : string) : string :=
  match s with
  | EmptyString => EmptyString
  | String c s' => if isspace c then lstrip s' else s
  end.

Fixpoint rstrip (s : string) : string :=
  match s with
  | EmptyString => EmptyString
  | String c s' =>
      match rstrip s' with
      | EmptyString => if isspace c then EmptyString else String c EmptyString
      | r => String c r
      end
  end.

Definition strip (s : string) : string := rstrip (lstrip s).

(** Every character of [s] is whitespace. *)
Fixpoint all_space (s : string) : bool :=
  match s with
  | EmptyString => true
  | String c s' => isspace c && all_space s'
  end.

(** The first character of [s], if any, is whitespace. *)
Definition starts_with_space (s : string) : bool :=
  match s with EmptyString => false | String c _ => isspace c end.

(** The last character of [s], if any, is whitespace. *)
Fixpoint ends_with_space (s : string) : bool :=
  match s with
  | EmptyString => false
  | String c EmptyString => isspace c
  | String _ s' => ends_with_space s'
  end.

(** *** [template.format(entity=entity)] *)

Definition PY_SSIZE_T_MAX : Z := 2 ^ 63 - 1.

Definition is_decimal (c : ascii) : bool :=
  let n := nat_of_ascii c in ((48 <=? n) && (n <=? 57))%nat.

(** What [get_integer] of CPython's formatter makes of a field name: not
    an index (empty, or a character that is no decimal digit is met), an
    index, or a run of digits that leaves the range of [Py_ssize_t]. *)
Inductive FieldIndex : Set :=
| NoIndex
| TooManyDigits
| Index (i : Z).

(** The digits are read from the left; the overflow test comes before
    each digit is added, so a run that is too long is an error even if
    a character that is no digit follows it. *)
Fixpoint get_integer_from (acc : Z) (s : string) : FieldIndex :=
  match s with
  | EmptyString => Index acc
  | String c s' =>
      if is_decimal c then
        let digitval := Z.of_nat (nat_of_ascii c) - 48 in
        if (PY_SSIZE_T_MAX - digitval) / 10 <? acc then TooManyDigits
        else get_integer_from (acc * 10 + digitval) s'
      else NoIndex
  end.

Definition get_integer (s : string) : FieldIndex :=
  match s with
  | EmptyString => NoIndex
  | _ => get_integer_from 0 s
  end.

Definition double_quote : ascii := ascii_of_nat 34.
Definition single_quote : ascii := ascii_of_nat 39.
Definition backslash : ascii := ascii_of_nat 92.

Fixpoint contains (c : ascii) (s : string) : bool :=
  match s with
  | EmptyString => false
  | String c' s' => Ascii.eqb c c' || contains c s'
  end.

(** One lower-case hexadecimal digit. *)
Definition hex_digit (n : nat) : ascii :=
  if (n <? 10)%nat then ascii_of_nat (48 + n) else ascii_of_nat (87 + n).

(** How [repr] writes one character of a [str] between the quotes
    [quote], for a code point below 256: the quote and the backslash
    get a backslash, TAB, LF and CR their letter, the other control
    characters, DEL, the code points 128 to 160 and the soft hyphen the
    form [\xNN]; every other character stands for itself. *)
Definition repr_char (quote c : ascii) : string :=
  let n := nat_of_ascii c in
  if Ascii.eqb c quote || Ascii.eqb c backslash
  then String backslash (String c EmptyString)
  else if (n =? 9)%nat then String backslash "t"
  else if (n =? 10)%nat then String backslash "n"
  else if (n =? 13)%nat then String backslash "r"
  else if ((n <? 32) || (n =? 127) || (128 <=? n) && (n <=? 160)
           || (n =? 173))%nat
  then String backslash
         (String "x" (String (hex_digit (n / 16))
                        (String (hex_digit (n mod 16)) EmptyString)))
  else String c EmptyString.

Fixpoint repr_chars (quote : ascii) (s : string) : string :=
  match s with
  | EmptyString => EmptyString
  | String c s' => repr_char quote c ++ repr_chars quote s'
  end.

(** [repr(s)]: double quotes when [s] holds a single quote and no
    double quote, single quotes otherwise. *)
Definition repr (s : string) : string :=
  let quote :=
    if contains single_quote s && negb (contains double_quote s)
    then double_quote else single_quote in
  String quote (repr_chars quote s ++ String quote EmptyString).

(** The value of a replacement field that is a bare name, when the only
    argument of [format] is the keyword [entity] (a [str]).  The text of
    a KeyError is the [repr] of the missing key. *)
Definition get_field (entity name : string) : Outcome string :=
  if String.eqb name "entity" then Returns entity
  else if String.eqb name ""
  then Raises (mkExc IndexError
         "Replacement index 0 out of range for positional args tuple")
  else match get_integer name with
       | Index i =>
           Raises (mkExc IndexError
             ("Replacement index " ++ str_of_int i
              ++ " out of range for positional args tuple"))
       | TooManyDigits =>
           Raises (mkExc ValueError
             "Too many decimal digits in format string")
       | NoIndex => Raises (mkExc KeyError (repr name))
       end.

(** Characters that open an attribute, an index, a conversion or a
    format spec inside a replacement field. *)
Definition opens_field_suffix (c : ascii) : bool :=
  let n := nat_of_ascii c in
  ((n =? 46) || (n =? 91) || (n =? 33) || (n =? 58))%nat.

Definition prepend (c : ascii) (o : Outcome string) : Outcome string :=
  match o with
  | Returns s => Returns (String c s)
  | other => other
  end.

Definition prepend_str (v : string) (o : Outcome string) : Outcome string :=
  match o with
  | Returns s => Returns (v ++ s)
  | other => other
  end.

(** Where the scanner of [str.format] is: in literal text, or inside a
    replacement field whose name read so far is [name]. *)
Inductive Scan : Set :=
| InText
| InField (name : string).

(** [str.format], scanning from the left: literal text is copied, [{{]
    and [}}] give one brace, [{name}] is looked up with [get_field].
    The first error met from the left is the one raised.

    Replacement fields that carry an attribute ([.a]), an index ([[0]]),
    a conversion ([!r]) or a format spec ([:>10]) are not described: the
    scan ends in [NotModelled] at the character that opens one. *)
Fixpoint format_scan (entity : string) (st : Scan) (s : string)
  : Outcome string :=
  match st with
  | InText =>
      match s with
      | EmptyString => Returns EmptyString
      | String "{" EmptyString =>
          Raises (mkExc ValueError "Single '{' encountered in format string")
      | String "{" (String "{" rest) =>
          prepend "{" (format_scan entity InText rest)
      | String "{" rest => format_scan entity (InField "") rest
      | String "}" (String "}" rest) =>
          prepend "}" (format_scan entity InText rest)
      | String "}" _ =>
          Raises (mkExc ValueError "Single '}' encountered in format string")
      | String c rest => prepend c (format_scan entity InText rest)
      end
  | InField name =>
      match s with
      | EmptyString =>
          Raises (mkExc ValueError "expected '}' before end of string")
      | String "}" rest =>
          match get_field entity name with
          | Returns v => prepend_str v (format_scan entity InText rest)
          | other => other
          end
      | String "{" _ =>
          Raises (mkExc ValueError "unexpected '{' in field name")
      | String c rest =>
          if opens_field_suffix c then NotModelled
          else format_scan entity (InField (name ++ String c EmptyString)) rest
      end
  end.

Definition str_format (template entity : string) : Outcome string :=
  format_scan entity InText template.


(** *** JSON values, as [response.json()] returns them *)

(** [JDict] lists the items of a dict in insertion order; keys are
    distinct, and a lookup takes the first entry with the key.  The
    digits of a float are never looked at and are kept as text. *)
Inductive Json : Set :=
| JNull
| JBool (b : bool)
| JInt (n : Z)
| JFloat (literal : string)
| JStr (s : string)
| JList (items : list Json)
| JDict (entries : list (string * Json)).

(** [type(v).__name__] *)
Definition type_name (v : Json) : string :=
  match v with
  | JNull => "NoneType"
  | JBool _ => "bool"
  | JInt _ => "int"
  | JFloat _ => "float"
  | JStr _ => "str"
  | JList _ => "list"
  | JDict _ => "dict"
  end.

Fixpoint lookup (key : string) (entries : list (string * Json)) : option Json :=
  match entries with
  | [] => None
  | (k, v) :: rest => if String.eqb k key then Some v else lookup key rest
  end.

(** [v.get(key, default)]: only a dict has the method. *)
Definition get (v : Json) (key : string) (default : Json) : Outcome Json :=
  match v with
  | JDict entries =>
      Returns (match lookup key entries with Some x => x | None => default end)
  | _ => Raises (mkExc AttributeError
           ("'" ++ type_name v ++ "' object has no attribute 'get'"))
  end.

Fixpoint chars (s : string) : list Json :=
  match s with
  | EmptyString => []
  | String c s' => JStr (String c EmptyString) :: chars s'
  end.

(** What [for x in v] runs over: the items of a list, the keys of a
    dict, the characters of a str; nothing else is iterable. *)
Definition iter (v : Json) : Outcome (list Json) :=
  match v with
  | JList items => Returns items
  | JDict entries => Returns (map (fun kv => JStr (fst kv)) entries)
  | JStr s => Returns (chars s)
  | _ => Raises (mkExc TypeError
           ("'" ++ type_name v ++ "' object is not iterable"))
  end.

(** The items of the sequence given to [str.join], which must all be
    [str]; [i] is the position of the head of [l]. *)
Fixpoint join_items (i : Z) (l : list Json) : Outcome (list string) :=
  match l with
  | [] => Returns []
  | JStr s :: rest =>
      match join_items (i + 1) rest with
      | Returns ss => Returns (s :: ss)
      | other => other
      end
  | v :: _ => Raises (mkExc TypeError
               ("sequence item " ++ str_of_int i
                ++ ": expected str instance, " ++ type_name v ++ " found"))
  end.

(** [sep.join(l)] *)
Definition join (sep : string) (l : list Json) : Outcome string :=
  match join_items 0 l with
  | Returns ss => Returns (String.concat sep ss)
  | Raises e => Raises e
  | NotModelled => NotModelled
  end.

(** [a / b] on ints.  Python rounds the quotient to a double; the exact
    quotient is kept here, so a statement may name the value of a
    division but not rely on its digits. *)
Definition true_div (a b : Z) : Outcome Q :=
  if b =? 0 then Raises (mkExc ZeroDivisionError "division by zero")
  else if b <? 0 then Returns (Qmake (- a) (Z.to_pos (- b)))
  else Returns (Qmake a (Z.to_pos b)).

End Py.

Import Py.

(** ** The outside: HTTP, the completion service, the front end *)

(** Query parameters of the search request. *)
Record Params : Set := mkParams { q : string; api_key : string; num : Z }.

(** Body of an HTTP response, as [response.json()] sees it. *)
Inductive Body : Set :=
| NotJson (text : string)      (* undecodable; [text] is the decoder's message *)
| IsJson (v : Json).

Record Response : Set := mkResponse
  { status_code : Z; reason : string; url : string; body : Body }.

(** [requests.get] either raises a [RequestException] (no connection,
    timeout, ...) with the given text or returns a response. *)
Inductive GetOutcome : Set :=
| GetRaises (text : string)
| GetReturns (r : Response).

Record ChatMessage : Set := mkMessage { role : string; content : string }.

(** Arguments of [chat.completions.create]. *)
Record ChatRequest : Set := mkChatRequest
  { model : string;
    messages : list ChatMessage;
    max_tokens : Z;
    temperature : Q }.

(** One completion choice; [message_content] is
    [choice.message.content], which may be [None]. *)
Record Choice : Set := mkChoice { message_content : option string }.

(** [chat.completions.create] either raises (any exception) or returns
    the list of choices. *)
Inductive CreateOutcome : Set :=
| CreateRaises (e : Exc)
| CreateReturns (choices : list Choice).

Inductive Event : Set :=
| Progress (value : Q)                        (* [st.progress(value)] *)
| HttpGet (address : string) (params : Params) (* [requests.get(url, params=params)] *)
| SidebarError (text : string)                (* [st.sidebar.error(text)] *)
| ChatCreate (request : ChatRequest)          (* [chat.completions.create(...)] *)
| Sleep (seconds : Q).                        (* [time.sleep(seconds)] *)

Definition History := list Event.
Bind Scope list_scope with History.

(** [h +++ events]: the history [h] followed by [events]. *)
Infix "+++" := (@app Event) (at level 60, right associativity).

(** The network as [requests] shows it: the answer to a GET may depend
    on everything that happened before. *)
Record World : Type := mkWorld
  { http : History -> string -> Params -> GetOutcome }.

(** The Groq client object. *)
Record GroqClient : Type := mkGroqClient
  { completions : History -> ChatRequest -> CreateOutcome }.

(** ** Computations: state passing over the history, with exceptions *)

Definition M (A : Type) : Type := History -> Outcome A * History.

Definition ret {A} (a : A) : M A := fun h => (Returns a, h).

Definition bind {A B} (m : M A) (k : A -> M B) : M B :=
  fun h =>
    match m h with
    | (Returns a, h') => k a h'
    | (Raises e, h') => (Raises e, h')
    | (NotModelled, h') => (NotModelled, h')
    end.

Declare Scope py_scope.
Delimit Scope py_scope with py.
Notation "x <- m ;; k" := (bind m (fun x => k))
  (at level 61, m at next level, right associativity) : py_scope.
Notation "m ;; k" := (bind m (fun _ => k))
  (at level 61, right associativity) : py_scope.
Local Open Scope py_scope.

(** A pure step that may raise. *)
Definition lift {A} (o : Outcome A) : M A := fun h => (o, h).

Definition emit (ev : Event) : M unit := fun h => (Returns tt, h +++ [ev]).

(** [try: body except <class> as e: handler(e)] *)
Definition try_except {A} (body : M A) (catches : Exc -> bool)
    (handler : Exc -> M A) : M A :=
  fun h =>
    match body h with
    | (Raises e, h') => if catches e then handler e h' else (Raises e, h')
    | other => other
    end.

(** [[f(x) for x in l]] *)
Fixpoint comprehension {A B} (f : A -> Outcome B) (l : list A)
  : Outcome (list B) :=
  match l with
  | [] => Returns []
  | x :: rest =>
      match f x with
      | Returns y =>
          match comprehension f rest with
          | Returns ys => Returns (y :: ys)
          | other => other
          end
      | Raises e => Raises e
      | NotModelled => NotModelled
      end
  end.

Definition st_progress (value : Q) : M unit := emit (Progress value).
Definition st_sidebar_error (text : string) : M unit := emit (SidebarError text).
Definition time_sleep (seconds : Q) : M unit := emit (Sleep seconds).

(** [requests.get(url, params=params)] *)
Definition requests_get (w : World) (address : string) (params : Params)
  : M Response :=
  fun h =>
    match http w h address params with
    | GetRaises text => (Raises (mkExc RequestException text),
                         h +++ [HttpGet address params])
    | GetReturns r => (Returns r, h +++ [HttpGet address params])
    end.

(** [response.raise_for_status()]: an [HTTPError] for a 4xx or 5xx
    status, nothing otherwise. *)
Definition raise_for_status (r : Response) : Outcome unit :=
  if (400 <=? status_code r) && (status_code r <? 500)
  then Raises (mkExc RequestException
         (str_of_int (status_code r) ++ " Client Error: " ++ reason r
          ++ " for url: " ++ url r))
  else if (500 <=? status_code r) && (status_code r <? 600)
  then Raises (mkExc RequestException
         (str_of_int (status_code r) ++ " Server Error: " ++ reason r
          ++ " for url: " ++ url r))
  else Returns tt.

(** [response.json()]: requests' [JSONDecodeError] (a
    [RequestException] since requests 2.27) when the body does not
    decode. *)
Definition response_json (r : Response) : Outcome Json :=
  match body r with
  | NotJson text => Raises (mkExc RequestException text)
  | IsJson v => Returns v
  end.

(** [client.chat.completions.create(...)] *)
Definition chat_completions_create (client : GroqClient) (request : ChatRequest)
  : M (list Choice) :=
  fun h =>
    match completions client h request with
    | CreateRaises e => (Raises e, h +++ [ChatCreate request])
    | CreateReturns choices =>
        (Returns choices, h +++ [ChatCreate request])
    end.

(** [choices[0]] *)
Definition first_choice (choices : list Choice) : Outcome Choice :=
  match choices with
  | c :: _ => Returns c
  | [] => Raises (mkExc IndexError "list index out of range")
  end.

(** [content.strip()], where [content] may be [None]. *)
Definition content_strip (content : option string) : Outcome string :=
  match content with
  | Some s => Returns (strip s)
  | None => Raises (mkExc AttributeError
              "'NoneType' object has no attribute 'strip'")
  end.

(** ** The pipeline *)

Record WebSearcher : Set := mkWebSearcher { serpapi_key : string }.

(** The snippets of a decoded body, joined: lines 35 to 38 of [search]. *)
Definition snippets_text (decoded : Json) : Outcome string :=
  match get decoded "organic_results" (JList []) with
  | Returns results =>
      match iter results with
      | Returns items =>
          match comprehension (fun result => get result "snippet" (JStr "")) items with
          | Returns snippets => join newline snippets
          | Raises e => Raises e
          | NotModelled => NotModelled
          end
      | Raises e => Raises e
      | NotModelled => NotModelled
      end
  | Raises e => Raises e
  | NotModelled => NotModelled
  end.

(** [WebSearcher.search] *)
Definition search (w : World) (self : WebSearcher) (entity prompt : string)
  : M string :=
  try_except
    (let address := "https://serpapi.com/search" in
     query <- lift (str_format prompt entity) ;;
     let params := {| q := query; api_key := serpapi_key self; num := 5 |} in
     response <- requests_get w address params ;;
     lift (raise_for_status response) ;;
     decoded <- lift (response_json response) ;;
     lift (snippets_text decoded))
    is_request_exception
    (fun e =>
       st_sidebar_error ("Error during web search: " ++ exc_text e) ;;
       ret "").

Record LLMProcessor : Type := mkLLMProcessor { groq_client : GroqClient }.

Definition system_message : ChatMessage :=
  {| role := "system";
     content := "You are a helpful assistant that extracts specific information from web search results." |}.

Definition user_message (formatted search_results : string) : ChatMessage :=
  {| role := "user";
     content := "Extract information from the following search results based on the prompt: '"
                ++ formatted ++ "'" ++ newline ++ newline
                ++ "Search Results:" ++ newline ++ search_results
                ++ newline ++ newline ++ "Extracted Information:" |}.

(** [LLMProcessor.extract_information] *)
Definition extract_information (self : LLMProcessor)
    (entity prompt search_results : string) : M string :=
  formatted <- lift (str_format prompt entity) ;;
  let messages := [system_message; user_message formatted search_results] in
  try_except
    (choices <- chat_completions_create (groq_client self)
                  {| model := "mixtral-8x7b-32768";
                     messages := messages;
                     max_tokens := 150;
                     temperature := 1 # 2 |} ;;
     choice <- lift (first_choice choices) ;;
     lift (content_strip (message_content choice)))
    is_exception
    (fun e =>
       st_sidebar_error ("Error during LLM extraction: " ++ exc_text e) ;;
       ret "").

Record DataProcessor : Type := mkDataProcessor
  { web_searcher : WebSearcher; llm_processor : LLMProcessor }.

(** One element of the result list: the dict with the keys [Entity] and
    [Extracted Information]. *)
Record Row : Set := mkRow { Entity : string; Extracted_Information : string }.

(** The body of the [for] loop of [process_entities], for the entity at
    position [idx]; [results] is the list built so far. *)
Definition loop_body (w : World) (self : DataProcessor) (prompt : string)
    (num_entities idx : Z) (entity : string) (results : list Row)
  : M (list Row) :=
  value <- lift (true_div (idx + 1) num_entities) ;;
  st_progress value ;;
  search_results <- search w (web_searcher self) entity prompt ;;
  results' <-
    (if truthy search_results then
       extracted_info <- extract_information (llm_processor self)
                           entity prompt search_results ;;
       ret (results ++ [{| Entity := entity;
                           Extracted_Information := extracted_info |}])%list
     else
       ret (results ++ [{| Entity := entity;
                           Extracted_Information := "No data found" |}])%list) ;;
  time_sleep (1 # 2) ;;
  ret results'.

(** [for idx, entity in enumerate(entities): ...], from position [idx]. *)
Fixpoint for_enumerate (w : World) (self : DataProcessor) (prompt : string)
    (num_entities idx : Z) (entities : list string) (results : list Row)
  : M (list Row) :=
  match entities with
  | [] => ret results
  | entity :: rest =>
      results' <- loop_body w self prompt num_entities idx entity results ;;
      for_enumerate w self prompt num_entities (idx + 1) rest results'
  end.

(** [DataProcessor.process_entities] *)
Definition process_entities (w : World) (self : DataProcessor)
    (entities : list string) (prompt : string) : M (list Row) :=
  let results := [] in
  let num_entities := len entities in
  for_enumerate w self prompt num_entities 0 entities results.

(** ** Vocabulary of the statements *)

Definition search_url : string := "https://serpapi.com/search".

(** The query parameters [search] sends for [query]. *)
Definition search_params (self : WebSearcher) (query : string) : Params :=
  {| q := query; api_key := serpapi_key self; num := 5 |}.

(** The arguments [extract_information] gives to the completion service. *)
Definition extraction_request (formatted search_results : string) : ChatRequest :=
  {| model := "mixtral-8x7b-32768";
     messages := [system_message; user_message formatted search_results];
     max_tokens := 150;
     temperature := 1 # 2 |}.

(** The exception a GET ends in at the transport level: [requests.get]
    raised, or the status is one [raise_for_status] rejects. *)
Definition transport_error (o : GetOutcome) : option Exc :=
  match o with
  | GetRaises text => Some (mkExc RequestException text)
  | GetReturns r =>
      match raise_for_status r with
      | Raises e => Some e
      | _ => None
      end
  end.

(** The GET for [query] made at history [h] is answered by a response
    that [raise_for_status] accepts and whose body decodes to [decoded]. *)
Definition answered_with (w : World) (self : WebSearcher) (h : History)
    (query : string) (decoded : Json) : Prop :=
  exists r,
    http w h search_url (search_params self query) = GetReturns r
    /\ raise_for_status r = Returns tt
    /\ body r = IsJson decoded.

(** The snippet of one organic result of the expected shape: an object
    whose [snippet], when present, is a string; the empty string when
    it is absent. *)
Definition snippet_of (result : Json) : option string :=
  match result with
  | JDict fields =>
      match lookup "snippet" fields with
      | None => Some ""
      | Some (JStr s) => Some s
      | Some _ => None
      end
  | _ => None
  end.

Fixpoint snippets_of (results : list Json) : option (list string) :=
  match results with
  | [] => Some []
  | result :: rest =>
      match snippet_of result, snippets_of rest with
      | Some s, Some ss => Some (s :: ss)
      | _, _ => None
      end
  end.

(** The snippets of a body of the expected shape, in the order of the
    body: an object whose [organic_results], when present, is an array
    of results of the expected shape. *)
Definition expected_snippets (decoded : Json) : option (list string) :=
  match decoded with
  | JDict entries =>
      match lookup "organic_results" entries with
      | None => Some []
      | Some (JList results) => snippets_of results
      | Some _ => None
      end
  | _ => None
  end.

(** An answer to the search request that is a transport failure, an
    undecodable body, or a body of the expected shape. *)
Definition expected_answer (o : GetOutcome) : bool :=
  match o with
  | GetRaises _ => true
  | GetReturns r =>
      match raise_for_status r with
      | Returns _ =>
          match body r with
          | NotJson _ => true
          | IsJson decoded =>
              match expected_snippets decoded with
              | Some _ => true
              | None => false
              end
          end
      | _ => true
      end
  end.

(** The search text as the specification words it: the snippets of at
    most five results, joined with newlines. *)
Definition text_of_up_to_five (snippets : list string) : string :=
  String.concat newline (firstn 5 snippets).

(** The completion requests recorded in a history, in order. *)
Fixpoint chat_requests (h : History) : list ChatRequest :=
  match h with
  | [] => []
  | ChatCreate request :: rest => request :: chat_requests rest
  | _ :: rest => chat_requests rest
  end.

(** The value shown on the progress bar for the entity that follows
    [pre] in [pre ++ entity :: post]. *)
Definition progress_at (pre : list string) (entity : string)
    (post : list string) : Q :=
  Qmake (len pre + 1) (Z.to_pos (len (pre ++ entity :: post))).

(** The run of [process_entities] on [pre ++ entity :: post], up to the
    iteration for [entity] and without it. *)
Definition run_before (w : World) (self : DataProcessor) (prompt : string)
    (pre : list string) (entity : string) (post : list string)
  : M (list Row) :=
  for_enumerate w self prompt (len (pre ++ entity :: post)) 0 pre [].

(** The rest of that run, after the iteration for [entity] has left the
    result list [results]. *)
Definition run_after (w : World) (self : DataProcessor) (prompt : string)
    (pre : list string) (entity : string) (post : list string)
    (results : list Row) : M (list Row) :=
  for_enumerate w self prompt (len (pre ++ entity :: post)) (len pre + 1)
    post results.

(** [process_entities] returns one row per entity, in the order of
    [entities]. *)
Definition returns_row_per_entity (w : World) (self : DataProcessor)
    (entities : list string) (prompt : string) (h : History) : Prop :=
  exists results h',
    process_entities w self entities prompt h = (Returns results, h')
    /\ length results = length entities
    /\ map Entity results = entities.

(** ** Scenarios *)

Module Scenario.

Definition ok (decoded : Json) : GetOutcome :=
  GetReturns (mkResponse 200 "OK" search_url (IsJson decoded)).

Definition result_with (snippet : string) : Json :=
  JDict [("title", JStr "t"); ("snippet", JStr snippet)].

Definition default_prompt : string := "Who is the ceo of {entity}?".

(** Snippets for Acme Corp, no organic results for anything else. *)
Definition acme_world : World :=
  mkWorld (fun _ _ params =>
    if String.eqb (q params) "Who is the ceo of Acme Corp?"
    then ok (JDict [("organic_results",
                     JList [result_with "Jane Doe is the CEO of Acme Corp.";
                            JDict [("title", JStr "Acme Corp")]])])
    else ok (JDict [("search_metadata", JDict [("status", JStr "Success")])])).

Definition jane_client : GroqClient :=
  mkGroqClient (fun _ _ => CreateReturns [mkChoice (Some "Jane Doe")]).

(** A client whose every call fails. *)
Definition failing_client : GroqClient :=
  mkGroqClient (fun _ _ => CreateRaises (mkExc APIError "Connection error.")).

Definition processor (client : GroqClient) : DataProcessor :=
  mkDataProcessor (mkWebSearcher "key") (mkLLMProcessor client).

(** A template with a doubled closing brace after the placeholder. *)
Definition stray_brace_prompt : string := "Who is the ceo of {entity}}?".

(** The three results of the specification's join example. *)
Definition join_example : Json :=
  JDict [("organic_results",
          JList [JDict [("snippet", JStr "a")];
                 JDict [("snippet", JStr "b")];
                 JDict []])].

(** Status 200, one organic result whose snippet is [null]. *)
Definition null_snippet_world : World :=
  mkWorld (fun _ _ _ =>
    ok (JDict [("organic_results", JList [JDict [("snippet", JNull)]])])).

(** Six organic results although five were asked for. *)
Definition six_results : list Json :=
  [result_with "s1"; result_with "s2"; result_with "s3";
   result_with "s4"; result_with "s5"; result_with "s6"].

Definition six_results_world : World :=
  mkWorld (fun _ _ _ => ok (JDict [("organic_results", JList six_results)])).

(** Status 300 with a body of the expected shape. *)
Definition multiple_choices_world : World :=
  mkWorld (fun _ _ _ =>
    GetReturns (mkResponse 300 "Multiple Choices" search_url
      (IsJson (JDict [("organic_results", JList [result_with "a"])])))).

(** Three entities; the request for the second one gets no connection. *)
Definition flaky_world : World :=
  mkWorld (fun _ _ params =>
    if String.eqb (q params) "Who is the ceo of Globex?"
    then GetRaises "Connection aborted."
    else ok (JDict [("organic_results", JList [result_with "x"])])).

End Scenario.

(** ** What a history records *)

(** The GET requests recorded in a history, in order. *)
Fixpoint get_requests (h : History) : list (string * Params) :=
  match h with
  | [] => []
  | HttpGet address params :: rest => (address, params) :: get_requests rest
  | _ :: rest => get_requests rest
  end.

(** The values shown on the progress bar, in order. *)
Fixpoint progress_values (h : History) : list Q :=
  match h with
  | [] => []
  | Progress value :: rest => value :: progress_values rest
  | _ :: rest => progress_values rest
  end.

(** The pauses taken, in order. *)
Fixpoint sleeps (h : History) : list Q :=
  match h with
  | [] => []
  | Sleep seconds :: rest => seconds :: sleeps rest
  | _ :: rest => sleeps rest
  end.

(** The messages shown in the sidebar, in order. *)
Fixpoint sidebar_errors (h : History) : list string :=
  match h with
  | [] => []
  | SidebarError text :: rest => text :: sidebar_errors rest
  | _ :: rest => sidebar_errors rest
  end.

(** An outcome that is no [RequestException]. *)
Definition no_request_exception {A} (o : Outcome A) : Prop :=
  forall e, o = Raises e -> is_request_exception e = false.

(** A text with no whitespace at either end. *)
Definition trimmed (s : string) : Prop :=
  starts_with_space s = false /\ ends_with_space s = false.


(** ** The loaders *)

(** How a call into a library ends: with an exception or with a value. *)
Definition of_result {A} (r : Exc + A) : Outcome A :=
  match r with
  | inl e => Raises e
  | inr a => Returns a
  end.

(** What [load_csv] and [load_google_sheet] take from Python and pandas:
    the type of data frames, [bytes.decode("utf-8")],
    [pd.read_csv(StringIO(text))] and [pd.DataFrame(data, columns=headers)]. *)
Record Tables : Type := mkTables
  { DataFrame : Type;
    decode_utf8 : list Byte.byte -> Exc + string;
    read_csv : string -> Exc + DataFrame;
    new_frame : list (list string) -> list string -> Exc + DataFrame }.

(** An uploaded file: what [uploaded_file.read()] gives. *)
Record UploadedFile : Type := mkUploadedFile
  { file_read : Exc + list Byte.byte }.

(** What [load_google_sheet] takes from google-auth and gspread. *)
Record Sheets : Type := mkSheets
  { Credentials : Type;
    Client : Type;
    Spreadsheet : Type;
    Worksheet : Type;
    from_service_account_file : string -> list string -> Exc + Credentials;
    authorize : Credentials -> Exc + Client;
    open_by_url : Client -> string -> Exc + Spreadsheet;
    sheet1 : Spreadsheet -> Exc + Worksheet;
    get_all_values : Worksheet -> Exc + list (list string) }.

(** [l.pop(0)]: the first element and what is left of [l]. *)
Definition pop_first {A} (l : list A) : Outcome (A * list A) :=
  match l with
  | [] => Raises (mkExc IndexError "pop from empty list")
  | x :: rest => Returns (x, rest)
  end.

(** [DataLoader.load_csv] *)
Definition load_csv (pd : Tables) (uploaded_file : UploadedFile)
  : M (option (DataFrame pd)) :=
  try_except
    (raw <- lift (of_result (file_read uploaded_file)) ;;
     csv_data <- lift (of_result (decode_utf8 pd raw)) ;;
     frame <- lift (of_result (read_csv pd csv_data)) ;;
     ret (Some frame))
    is_exception
    (fun e =>
       st_sidebar_error ("Error reading CSV file: " ++ exc_text e) ;;
       ret None).

(** [DataLoader.load_google_sheet] *)
Definition load_google_sheet (g : Sheets) (pd : Tables) (sheet_url : string)
  : M (option (DataFrame pd)) :=
  try_except
    (creds <- lift (of_result
                (from_service_account_file g "credentials.json"
                   ["https://www.googleapis.com/auth/spreadsheets"])) ;;
     client <- lift (of_result (authorize g creds)) ;;
     spreadsheet <- lift (of_result (open_by_url g client sheet_url)) ;;
     sheet <- lift (of_result (sheet1 g spreadsheet)) ;;
     data <- lift (of_result (get_all_values g sheet)) ;;
     popped <- lift (pop_first data) ;;
     let headers := fst popped in
     let data := snd popped in
     frame <- lift (of_result (new_frame pd data headers)) ;;
     ret (Some frame))
    is_exception
    (fun e =>
       st_sidebar_error ("Error connecting to Google Sheet: " ++ exc_text e) ;;
       ret None).

(** Stand-ins for the libraries of the loaders. *)
Module LoaderScenario.

(** Frames kept as the pair of the column names and the rows; the text
    of a CSV file is not parsed. *)
Definition plain_tables : Tables :=
  {| DataFrame := list string * list (list string);
     decode_utf8 := fun _ =>
       inl (mkExc ValueError "invalid start byte");
     read_csv := fun _ =>
       inl (mkExc ValueError "No columns to parse from file");
     new_frame := fun data headers => inr (headers, data) |}.

(** A Google account in which every call succeeds and the first
    worksheet holds [values]. *)
Definition sheet_with (values : list (list string)) : Sheets :=
  {| Credentials := unit;
     Client := unit;
     Spreadsheet := unit;
     Worksheet := unit;
     from_service_account_file := fun _ _ => inr tt;
     authorize := fun _ => inr tt;
     open_by_url := fun _ _ => inr tt;
     sheet1 := fun _ => inr tt;
     get_all_values := fun _ => inr values |}.

End LoaderScenario.

(** ** The embedding on small inputs *)

Example format_default_prompt :
  str_format "Who is the ceo of {entity}?" "Acme Corp"
  = Returns "Who is the ceo of Acme Corp?".
Proof. reflexivity. Qed.

Example format_doubled_braces :
  str_format "{{x}} {entity}{entity}" "a" = Returns "{x} aa".
Proof. reflexivity. Qed.

Example format_unknown_field :
  str_format "Who is the {role} of {entity}?" "Acme Corp"
  = Raises (mkExc KeyError "'role'").
Proof. reflexivity. Qed.

Example format_positional_field :
  str_format "{12} {" "a"
  = Raises (mkExc IndexError
      "Replacement index 12 out of range for positional args tuple").
Proof. reflexivity. Qed.

Example format_too_many_digits :
  str_format "{99999999999999999999x}" "a"
  = Raises (mkExc ValueError "Too many decimal digits in format string").
Proof. reflexivity. Qed.

Example format_largest_index :
  str_format "{9223372036854775807}" "a"
  = Raises (mkExc IndexError
      "Replacement index 9223372036854775807 out of range for positional args tuple").
Proof. reflexivity. Qed.

Example format_key_with_quote :
  str_format "{it's}" "a"
  = Raises (mkExc KeyError
      (String double_quote ("it's" ++ String double_quote EmptyString))).
Proof. reflexivity. Qed.

Example format_key_with_backslash :
  str_format "{a b\c}" "a" = Raises (mkExc KeyError "'a b\\c'").
Proof. reflexivity. Qed.

Example format_unclosed_field :
  str_format "ceo of {entity" "a"
  = Raises (mkExc ValueError "expected '}' before end of string").
Proof. reflexivity. Qed.

Example format_conversion_not_modelled :
  str_format "{entity!r}" "a" = NotModelled.
Proof. reflexivity. Qed.

Example strip_inner_space_kept :
  strip (newline ++ " a  b " ++ newline) = "a  b".
Proof. reflexivity. Qed.

Example snippets_text_join_example :
  snippets_text Scenario.join_example
  = Returns ("a" ++ newline ++ "b" ++ newline).
Proof. reflexivity. Qed.

Example snippets_text_results_null :
  snippets_text (JDict [("organic_results", JNull)])
  = Raises (mkExc TypeError "'NoneType' object is not iterable").
Proof. reflexivity. Qed.

Example snippets_text_body_list :
  snippets_text (JList [])
  = Raises (mkExc AttributeError "'list' object has no attribute 'get'").
Proof. reflexivity. Qed.

(** ** Facts about [strip] *)

Lemma lstrip_split (s : string) :
  exists l, s = l ++ lstrip s /\ all_space l = true.
Proof.
  induction s as [|c s IH]; simpl.
  - exists ""; auto.
  - destruct (isspace c) eqn:Hc.
    + destruct IH as (l & Hl & Hs).
      exists (String c l); simpl. rewrite Hc, Hs.
      split; [congruence | reflexivity].
    + exists ""; auto.
Qed.

Lemma rstrip_split (s : string) :
  exists r, s = rstrip s ++ r /\ all_space r = true.
Proof.
  induction s as [|c s IH]; simpl.
  - exists ""; auto.
  - destruct IH as (r & Hr & Hs).
    destruct (rstrip s) as [|a b] eqn:Hrs.
    + simpl in Hr. subst r.
      destruct (isspace c) eqn:Hc.
      * exists (String c s); simpl. rewrite Hc, Hs. auto.
      * exists s; auto.
    + exists r. simpl. split; [ | assumption].
      f_equal. exact Hr.
Qed.

Lemma lstrip_no_leading (s : string) : starts_with_space (lstrip s) = false.
Proof.
  induction s as [|c s IH]; simpl; [reflexivity | ].
  destruct (isspace c) eqn:Hc; [assumption | simpl; assumption].
Qed.

Lemma rstrip_no_trailing (s : string) : ends_with_space (rstrip s) = false.
Proof.
  induction s as [|c s IH]; simpl; [reflexivity | ].
  destruct (rstrip s) as [|a b] eqn:Hrs.
  - destruct (isspace c) eqn:Hc; simpl; auto.
  - exact IH.
Qed.

Lemma rstrip_keeps_head (s : string) :
  starts_with_space s = false -> starts_with_space (rstrip s) = false.
Proof.
  destruct s as [|c s]; simpl; [reflexivity | ].
  intros Hc. destruct (rstrip s); [rewrite Hc | ]; simpl; auto.
Qed.

(** [strip s] is [s] without a run of whitespace at each end, and has
    no whitespace left at either end. *)
Lemma strip_spec (s : string) :
  exists l r,
    s = l ++ strip s ++ r
    /\ all_space l = true /\ all_space r = true
    /\ starts_with_space (strip s) = false
    /\ ends_with_space (strip s) = false.
Proof.
  destruct (lstrip_split s) as (l & Hl & Hls).
  destruct (rstrip_split (lstrip s)) as (r & Hr & Hrs).
  exists l, r. unfold strip.
  repeat split; auto.
  - rewrite <- Hr. exact Hl.
  - apply rstrip_keeps_head, lstrip_no_leading.
  - apply rstrip_no_trailing.
Qed.

(** ** Facts about the adapters *)

Lemma app_two (h : History) (a b : Event) :
  (h +++ [a]) +++ [b] = h +++ [a; b].
Proof. rewrite <- app_assoc. reflexivity. Qed.

Lemma chat_requests_app (h1 h2 : History) :
  chat_requests (h1 +++ h2) = (chat_requests h1 ++ chat_requests h2)%list.
Proof.
  induction h1 as [|ev h1 IH]; simpl; [reflexivity | ].
  destruct ev; simpl; rewrite IH; reflexivity.
Qed.

Lemma raise_for_status_class (r : Response) (e : Exc) :
  raise_for_status r = Raises e -> is_request_exception e = true.
Proof.
  unfold raise_for_status.
  destruct (_ && _); [intros H; inversion H; reflexivity | ].
  destruct (_ && _); [intros H; inversion H; reflexivity | discriminate].
Qed.

Lemma raise_for_status_modelled (r : Response) :
  raise_for_status r <> NotModelled.
Proof.
  unfold raise_for_status. repeat destruct (_ && _); discriminate.
Qed.

(** A transport failure: the error is shown in the sidebar and the
    search text is empty. *)
Lemma search_transport_error w self entity prompt h query e :
  str_format prompt entity = Returns query ->
  transport_error (http w h search_url (search_params self query)) = Some e ->
  search w self entity prompt h
  = (Returns "",
     h +++ [HttpGet search_url (search_params self query);
            SidebarError ("Error during web search: " ++ exc_text e)]).
Proof.
  intros Hf Ht.
  unfold search, try_except, bind, lift, requests_get, st_sidebar_error, emit, ret.
  rewrite Hf. fold search_url. fold (search_params self query).
  unfold transport_error in Ht.
  destruct (http w h search_url (search_params self query)) as [text | r].
  - inversion Ht; subst. simpl. rewrite app_two. reflexivity.
  - destruct (raise_for_status r) as [ [] | e' | ] eqn:Hr; try discriminate.
    inversion Ht; subst.
    rewrite (raise_for_status_class _ _ Hr). rewrite app_two. reflexivity.
Qed.

Lemma get_class v key default e :
  get v key default = Raises e -> is_request_exception e = false.
Proof.
  unfold get. destruct v; intros H; inversion H; reflexivity.
Qed.

Lemma iter_class v e :
  iter v = Raises e -> is_request_exception e = false.
Proof.
  unfold iter. destruct v; intros H; inversion H; reflexivity.
Qed.

Lemma comprehension_class {A B} (f : A -> Outcome B) (P : Exc -> Prop) :
  (forall x e, f x = Raises e -> P e) ->
  forall l e, comprehension f l = Raises e -> P e.
Proof.
  intros Hf. induction l as [|x l IH]; simpl; intros e H; [discriminate | ].
  destruct (f x) as [y | e' | ] eqn:Hx; try discriminate.
  - destruct (comprehension f l) as [ys | e' | ]; try discriminate.
    inversion H; subst. apply IH. reflexivity.
  - inversion H; subst. eapply Hf. eassumption.
Qed.

Lemma join_items_class l : forall i e,
  join_items i l = Raises e -> is_request_exception e = false.
Proof.
  induction l as [|x l IH]; simpl; intros i e H; [discriminate | ].
  destruct x; try (inversion H; reflexivity).
  destruct (join_items (i + 1) l) eqn:Hi; try discriminate.
  inversion H; subst. eapply IH. eassumption.
Qed.

Lemma snippets_text_class decoded e :
  snippets_text decoded = Raises e -> is_request_exception e = false.
Proof.
  unfold snippets_text. intros H.
  destruct (get decoded "organic_results" (JList [])) as [results | e1 | ] eqn:Hg;
    try discriminate.
  2: { inversion H; subst. eapply get_class. eassumption. }
  destruct (iter results) as [items | e1 | ] eqn:Hi; try discriminate.
  2: { inversion H; subst. eapply iter_class. eassumption. }
  destruct (comprehension _ items) as [snippets | e1 | ] eqn:Hc; try discriminate.
  2: { inversion H; subst.
       eapply (comprehension_class _ (fun e => is_request_exception e = false));
         [ | eassumption].
       intros x e0. apply get_class. }
  unfold join in H.
  destruct (join_items 0 snippets) as [ss | e1 | ] eqn:Hj; try discriminate.
  inversion H; subst. eapply join_items_class. eassumption.
Qed.

(** What [search] does once the query is built, case by case. *)
Lemma search_unfold w self entity prompt h query :
  str_format prompt entity = Returns query ->
  search w self entity prompt h
  = let h1 := h +++ [HttpGet search_url (search_params self query)] in
    match http w h search_url (search_params self query) with
    | GetRaises text =>
        (Returns "", h1 +++ [SidebarError ("Error during web search: " ++ text)])
    | GetReturns r =>
        match raise_for_status r with
        | Returns _ =>
            match body r with
            | NotJson text =>
                (Returns "",
                 h1 +++ [SidebarError ("Error during web search: " ++ text)])
            | IsJson decoded => (snippets_text decoded, h1)
            end
        | Raises e =>
            (Returns "",
             h1 +++ [SidebarError ("Error during web search: " ++ exc_text e)])
        | NotModelled => (NotModelled, h1)
        end
    end.
Proof.
  intros Hf.
  unfold search, try_except, bind, lift, requests_get, response_json,
    st_sidebar_error, emit, ret.
  rewrite Hf. fold search_url. fold (search_params self query). cbv zeta.
  destruct (http w h search_url (search_params self query)) as [text | r];
    [reflexivity | ].
  destruct (raise_for_status r) as [ [] | e | ] eqn:Hr.
  - destruct (body r) as [text | decoded]; [reflexivity | ].
    destruct (snippets_text decoded) as [ s | e | ] eqn:Hs; try reflexivity.
    rewrite (snippets_text_class _ _ Hs). reflexivity.
  - rewrite (raise_for_status_class _ _ Hr). reflexivity.
  - reflexivity.
Qed.

Lemma comprehension_snippets results : forall ss,
  snippets_of results = Some ss ->
  comprehension (fun result => get result "snippet" (JStr "")) results
  = Returns (map JStr ss).
Proof.
  induction results as [|result results IH]; simpl; intros ss H.
  - inversion H; reflexivity.
  - destruct (snippet_of result) as [s | ] eqn:Hs; [ | discriminate].
    destruct (snippets_of results) as [ss' | ]; [ | discriminate].
    inversion H; subst. rewrite (IH ss' eq_refl).
    unfold snippet_of in Hs. destruct result; try discriminate.
    unfold get. destruct (lookup "snippet" entries) as [v | ].
    + destruct v; try discriminate. inversion Hs; reflexivity.
    + inversion Hs; reflexivity.
Qed.

Lemma join_items_strings ss : forall i, join_items i (map JStr ss) = Returns ss.
Proof.
  induction ss as [|s ss IH]; simpl; intros i; [reflexivity | ].
  rewrite IH. reflexivity.
Qed.

(** On a body of the expected shape the joined text is the snippets of
    all the results, in order, with newlines between them. *)
Lemma snippets_text_expected decoded ss :
  expected_snippets decoded = Some ss ->
  snippets_text decoded = Returns (String.concat newline ss).
Proof.
  unfold expected_snippets, snippets_text. intros H.
  destruct decoded; try discriminate. unfold get at 1.
  destruct (lookup "organic_results" entries) as [v | ].
  - destruct v; try discriminate. unfold iter.
    rewrite (comprehension_snippets _ _ H).
    unfold join. rewrite join_items_strings. reflexivity.
  - inversion H; subst. reflexivity.
Qed.

Lemma search_answered w self entity prompt h query decoded :
  str_format prompt entity = Returns query ->
  answered_with w self h query decoded ->
  search w self entity prompt h
  = (snippets_text decoded,
     h +++ [HttpGet search_url (search_params self query)]).
Proof.
  intros Hf (r & Hget & Hst & Hb).
  rewrite (search_unfold _ _ _ _ _ _ Hf). cbv zeta.
  rewrite Hget, Hst, Hb. reflexivity.
Qed.

(** With a query that formats and an answer of an expected kind,
    [search] returns. *)
Lemma search_returns w self entity prompt h query :
  str_format prompt entity = Returns query ->
  expected_answer (http w h search_url (search_params self query)) = true ->
  exists text h', search w self entity prompt h = (Returns text, h').
Proof.
  intros Hf He.
  rewrite (search_unfold _ _ _ _ _ _ Hf). cbv zeta.
  unfold expected_answer in He.
  destruct (http w h search_url (search_params self query)) as [text | r];
    [eauto | ].
  destruct (raise_for_status r) as [ [] | e | ] eqn:Hr; [ | eauto | ].
  - destruct (body r) as [text | decoded]; [eauto | ].
    destruct (expected_snippets decoded) as [ss | ] eqn:Hs; [ | discriminate].
    rewrite (snippets_text_expected _ _ Hs). eauto.
  - exfalso. eapply raise_for_status_modelled. eassumption.
Qed.

(** [search] only appends to the history, and never a completion
    request. *)
Lemma search_history w self entity prompt h o h' :
  search w self entity prompt h = (o, h') ->
  exists events, h' = h +++ events /\ chat_requests events = [].
Proof.
  destruct (str_format prompt entity) as [query | e | ] eqn:Hf.
  - rewrite (search_unfold _ _ _ _ _ _ Hf). cbv zeta.
    intros H.
    repeat match type of H with
           | context [match ?x with _ => _ end] => destruct x
           end;
      inversion H; subst;
      try rewrite app_two; eexists; split; reflexivity.
  - unfold search, try_except, bind, lift, st_sidebar_error, emit, ret.
    rewrite Hf. destruct (is_request_exception e); intros H; inversion H; subst.
    + eexists; split; reflexivity.
    + exists []. rewrite app_nil_r. split; reflexivity.
  - unfold search, try_except, bind, lift. rewrite Hf.
    intros H; inversion H; subst.
    exists []. rewrite app_nil_r. split; reflexivity.
Qed.

(** A non-empty search text can only come from a query that formatted. *)
Lemma search_text_formatted w self entity prompt h text h' :
  search w self entity prompt h = (Returns text, h') ->
  truthy text = true ->
  exists query, str_format prompt entity = Returns query.
Proof.
  destruct (str_format prompt entity) as [query | e | ] eqn:Hf; [eauto | | ].
  - unfold search, try_except, bind, lift, st_sidebar_error, emit, ret.
    rewrite Hf. destruct (is_request_exception e); intros H; inversion H; subst.
    discriminate.
  - unfold search, try_except, bind, lift. rewrite Hf. discriminate.
Qed.

(** What [extract_information] does once the prompt is formatted, case
    by case. *)
Lemma extract_information_unfold self entity prompt search_results h formatted :
  str_format prompt entity = Returns formatted ->
  extract_information self entity prompt search_results h
  = let request := extraction_request formatted search_results in
    let h1 := h +++ [ChatCreate request] in
    let failed text :=
      (Returns "",
       h +++ [ChatCreate request;
             SidebarError ("Error during LLM extraction: " ++ text)]) in
    match completions (groq_client self) h request with
    | CreateRaises e => failed (exc_text e)
    | CreateReturns [] => failed "list index out of range"
    | CreateReturns (choice :: _) =>
        match message_content choice with
        | Some text => (Returns (strip text), h1)
        | None => failed "'NoneType' object has no attribute 'strip'"
        end
    end.
Proof.
  intros Hf.
  unfold extract_information, try_except, bind, lift, chat_completions_create,
    st_sidebar_error, emit, ret, is_exception.
  rewrite Hf. fold (extraction_request formatted search_results). cbv zeta.
  destruct (completions (groq_client self) h _) as [e | choices].
  - rewrite app_two. reflexivity.
  - destruct choices as [|choice rest]; simpl.
    + rewrite app_two. reflexivity.
    + destruct (message_content choice); simpl; [reflexivity | ].
      rewrite app_two. reflexivity.
Qed.

(** Once the prompt is formatted, [extract_information] returns. *)
Lemma extract_information_returns self entity prompt search_results h formatted :
  str_format prompt entity = Returns formatted ->
  exists text h',
    extract_information self entity prompt search_results h = (Returns text, h').
Proof.
  intros Hf. rewrite (extract_information_unfold _ _ _ _ _ _ Hf). cbv zeta.
  destruct (completions _ _ _) as [e | [|choice rest]]; eauto.
  destruct (message_content choice); eauto.
Qed.

(** ** Facts about the loop *)

Lemma true_div_positive (a b : Z) :
  0 < b -> true_div a b = Returns (Qmake a (Z.to_pos b)).
Proof.
  intros Hb. unfold true_div.
  destruct (Z.eqb_spec b 0); [lia | ].
  destruct (Z.ltb_spec b 0); [lia | reflexivity].
Qed.

Lemma len_app {A} (l1 l2 : list A) : len (l1 ++ l2) = len l1 + len l2.
Proof. unfold len. rewrite length_app. lia. Qed.

Lemma len_cons {A} (x : A) (l : list A) : len (x :: l) = len l + 1.
Proof. unfold len. simpl length. lia. Qed.

Lemma len_nonneg {A} (l : list A) : 0 <= len l.
Proof. unfold len. lia. Qed.

(** One iteration, case by case, when the entity count is positive. *)
Lemma loop_body_unfold w self prompt n idx entity results h :
  0 < n ->
  loop_body w self prompt n idx entity results h
  = match search w (web_searcher self) entity prompt
            (h +++ [Progress (Qmake (idx + 1) (Z.to_pos n))]) with
    | (Returns text, h2) =>
        if truthy text then
          match extract_information (llm_processor self) entity prompt text h2 with
          | (Returns info, h3) =>
              (Returns (results ++ [mkRow entity info])%list, h3 +++ [Sleep (1 # 2)])
          | (Raises e, h3) => (Raises e, h3)
          | (NotModelled, h3) => (NotModelled, h3)
          end
        else
          (Returns (results ++ [mkRow entity "No data found"])%list,
           h2 +++ [Sleep (1 # 2)])
    | (Raises e, h2) => (Raises e, h2)
    | (NotModelled, h2) => (NotModelled, h2)
    end.
Proof.
  intros Hn.
  unfold loop_body, bind, lift, st_progress, time_sleep, emit, ret.
  rewrite (true_div_positive _ _ Hn).
  destruct (search _ _ _ _ _) as [[text | e | ] h2]; try reflexivity.
  destruct (truthy text); [ | reflexivity].
  destruct (extract_information _ _ _ _ _) as [[info | e | ] h3]; reflexivity.
Qed.

(** An iteration that returns has appended exactly one row, for its
    entity. *)
Lemma loop_body_rows w self prompt n idx entity results h rows h' :
  loop_body w self prompt n idx entity results h = (Returns rows, h') ->
  exists info, rows = (results ++ [mkRow entity info])%list.
Proof.
  unfold loop_body, bind, lift, st_progress, time_sleep, emit, ret.
  destruct (true_div (idx + 1) n) as [value | e | ]; try discriminate.
  destruct (search _ _ _ _ _) as [[text | e | ] h2]; try discriminate.
  destruct (truthy text).
  - destruct (extract_information _ _ _ _ _) as [[info | e | ] h3];
      try discriminate.
    intros H; inversion H; subst. eauto.
  - intros H; inversion H; subst. eauto.
Qed.

(** The loop over [pre ++ post] is the loop over [pre] followed by the
    loop over [post]. *)
Lemma for_enumerate_app w self prompt n pre : forall post idx results h,
  for_enumerate w self prompt n idx (pre ++ post) results h
  = match for_enumerate w self prompt n idx pre results h with
    | (Returns rows, h') =>
        for_enumerate w self prompt n (idx + len pre) post rows h'
    | (Raises e, h') => (Raises e, h')
    | (NotModelled, h') => (NotModelled, h')
    end.
Proof.
  induction pre as [|entity pre IH]; intros post idx results h.
  - simpl. unfold ret. rewrite Z.add_0_r. reflexivity.
  - change ((entity :: pre) ++ post)%list with (entity :: (pre ++ post))%list.
    cbn [for_enumerate]. unfold bind.
    destruct (loop_body w self prompt n idx entity results h)
      as [[rows | e | ] h1]; try reflexivity.
    rewrite IH. rewrite len_cons.
    replace (idx + 1 + len pre) with (idx + (len pre + 1)) by lia.
    reflexivity.
Qed.

(** A loop that returns has appended one row per entity, in order. *)
Lemma for_enumerate_rows w self prompt n entities :
  forall idx results h rows h',
    for_enumerate w self prompt n idx entities results h = (Returns rows, h') ->
    exists tail, rows = (results ++ tail)%list /\ map Entity tail = entities.
Proof.
  induction entities as [|entity rest IH]; intros idx results h rows h' H.
  - simpl in H. inversion H; subst. exists []. rewrite app_nil_r. auto.
  - cbn [for_enumerate] in H. unfold bind in H.
    destruct (loop_body w self prompt n idx entity results h)
      as [[rows1 | e | ] h1] eqn:Hb; try discriminate.
    destruct (loop_body_rows _ _ _ _ _ _ _ _ _ _ Hb) as (info & ->).
    destruct (IH _ _ _ _ _ H) as (tail & -> & Ht).
    exists (mkRow entity info :: tail). rewrite <- app_assoc. simpl.
    rewrite Ht. auto.
Qed.

(** Whenever [process_entities] returns, it returns one row per entity,
    in the order of the input. *)
Lemma process_entities_rows w self entities prompt h rows h' :
  process_entities w self entities prompt h = (Returns rows, h') ->
  map Entity rows = entities.
Proof.
  unfold process_entities. intros H.
  destruct (for_enumerate_rows _ _ _ _ _ _ _ _ _ _ H) as (tail & -> & Ht).
  exact Ht.
Qed.

(** From the state in which the iteration for [entity] starts to the
    rest of the run. *)
Lemma process_entities_through w self prompt pre entity post h results hE rows h1 :
  run_before w self prompt pre entity post h = (Returns results, hE) ->
  loop_body w self prompt (len (pre ++ entity :: post)) (len pre)
    entity results hE = (Returns rows, h1) ->
  process_entities w self (pre ++ entity :: post) prompt h
  = run_after w self prompt pre entity post rows h1.
Proof.
  unfold run_before, run_after, process_entities. intros Hpre Hbody.
  cbv zeta. rewrite for_enumerate_app, Hpre.
  cbn [for_enumerate]. unfold bind. rewrite Z.add_0_l, Hbody. reflexivity.
Qed.

(** The row that the iteration for [entity] appended is the row at the
    position of [entity] in the final result. *)
Lemma row_of_entity w self prompt pre entity post h results hE row h1 rows h' :
  run_before w self prompt pre entity post h = (Returns results, hE) ->
  run_after w self prompt pre entity post (results ++ [row]) h1
  = (Returns rows, h') ->
  nth_error rows (length pre) = Some row.
Proof.
  unfold run_before, run_after. intros Hpre Hpost.
  destruct (for_enumerate_rows _ _ _ _ _ _ _ _ _ _ Hpre) as (tail & -> & Ht).
  destruct (for_enumerate_rows _ _ _ _ _ _ _ _ _ _ Hpost) as (tail' & -> & _).
  simpl. rewrite <- Ht, length_map.
  rewrite <- app_assoc. rewrite nth_error_app2 by lia.
  rewrite Nat.sub_diag. reflexivity.
Qed.

Lemma entity_count_positive (pre : list string) entity post :
  0 < len (pre ++ entity :: post).
Proof.
  rewrite len_app, len_cons.
  pose proof (len_nonneg pre). pose proof (len_nonneg post). lia.
Qed.

(** ** Properties of the pipeline *)

(** The rows built before the iteration for [entity] are the first rows
    of the final result. *)
Lemma rows_around_entity w self prompt pre entity post h results hE row h1 rows h' :
  run_before w self prompt pre entity post h = (Returns results, hE) ->
  run_after w self prompt pre entity post (results ++ [row]) h1
  = (Returns rows, h') ->
  firstn (length pre) rows = results.
Proof.
  unfold run_before, run_after. intros Hpre Hpost.
  destruct (for_enumerate_rows _ _ _ _ _ _ _ _ _ _ Hpre) as (tail & -> & Ht).
  destruct (for_enumerate_rows _ _ _ _ _ _ _ _ _ _ Hpost) as (tail' & -> & _).
  simpl. rewrite <- Ht, length_map.
  rewrite <- app_assoc. rewrite firstn_app, firstn_all, Nat.sub_diag.
  simpl. apply app_nil_r.
Qed.

(** While every template substitution succeeds and every answer to a
    search request is of an expected kind, the loop returns. *)
Lemma for_enumerate_returns w self prompt n entities :
  (forall entity, In entity entities ->
     exists query, str_format prompt entity = Returns query) ->
  (forall h query,
     expected_answer (http w h search_url
                        (search_params (web_searcher self) query)) = true) ->
  0 < n ->
  forall idx results h,
    exists rows h',
      for_enumerate w self prompt n idx entities results h = (Returns rows, h').
Proof.
  intros Hf Hw Hn.
  induction entities as [|entity rest IH]; intros idx results h.
  - simpl. unfold ret. eauto.
  - cbn [for_enumerate]. unfold bind.
    destruct (Hf entity (or_introl eq_refl)) as (query & Hq).
    rewrite (loop_body_unfold _ _ _ _ _ _ _ _ Hn).
    destruct (search_returns w (web_searcher self) entity prompt
                (h +++ [Progress (Qmake (idx + 1) (Z.to_pos n))]) query Hq (Hw _ _))
      as (text & h2 & ->).
    destruct (truthy text).
    + destruct (extract_information_returns (llm_processor self) entity prompt
                  text h2 query Hq) as (info & h3 & ->).
      apply IH. intros e He. apply Hf. right. exact He.
    + apply IH. intros e He. apply Hf. right. exact He.
Qed.

(** C1 (as amended).  For every sequence of n entity names and every
    prompt template whose substitution succeeds for each of them, and as
    long as every answer to a search request is a transport failure, an
    undecodable body or a body of the expected shape, [process_entities]
    returns exactly n rows, one per input entity, in the order of the
    input, whatever the searches and the extraction calls return and
    whether they fail. *)
Theorem process_entities_cardinality w self entities prompt h :
  (forall entity, In entity entities ->
     exists query, str_format prompt entity = Returns query) ->
  (forall h' query,
     expected_answer (http w h' search_url
                        (search_params (web_searcher self) query)) = true) ->
  returns_row_per_entity w self entities prompt h.
Proof.
  intros Hf Hw.
  assert (Hret : exists rows h',
             process_entities w self entities prompt h = (Returns rows, h')).
  { unfold process_entities. cbv zeta.
    destruct entities as [|entity rest].
    - simpl. unfold ret. eauto.
    - apply for_enumerate_returns; auto.
      apply (entity_count_positive [] entity rest). }
  destruct Hret as (rows & h' & Hrun).
  exists rows, h'. split; [exact Hrun | ].
  pose proof (process_entities_rows _ _ _ _ _ _ _ Hrun) as Hmap.
  split; [ | exact Hmap].
  rewrite <- Hmap, length_map. reflexivity.
Qed.

Lemma process_entities_cardinality_witness :
  returns_row_per_entity Scenario.acme_world
    (Scenario.processor Scenario.jane_client)
    ["Acme Corp"; "Globex"] Scenario.default_prompt [].
Proof.
  apply (process_entities_cardinality Scenario.acme_world
           (Scenario.processor Scenario.jane_client)
           ["Acme Corp"; "Globex"] Scenario.default_prompt []).
  - intros entity _. eexists. reflexivity.
  - intros h' query. simpl.
    destruct (String.eqb query "Who is the ceo of Acme Corp?"); reflexivity.
Defined.

(** C1 as stated fails: with the template [Who is the ceo of {entity}}?]
    the substitution raises ValueError inside [search], which lets it
    through, and [process_entities] returns no rows at all. *)
Lemma process_entities_stray_brace :
  process_entities Scenario.acme_world (Scenario.processor Scenario.jane_client)
    ["Acme Corp"; "Globex"] Scenario.stray_brace_prompt []
  = (Raises (mkExc ValueError "Single '}' encountered in format string"),
     [Progress (1 # 2)])
  /\ ~ returns_row_per_entity Scenario.acme_world
         (Scenario.processor Scenario.jane_client)
         ["Acme Corp"; "Globex"] Scenario.stray_brace_prompt [].
Proof.
  split; [vm_compute; reflexivity | ].
  intros (results & h' & Hrun & _). vm_compute in Hrun. discriminate.
Qed.

(** C10.  On the empty entity list [process_entities] returns the empty
    list and leaves the history as it was: no progress value, no search,
    no completion request.  The division by the entity count is part of
    the loop body, which raises ZeroDivisionError when it is run with a
    count of zero, and is not run here. *)
Theorem process_entities_empty w self prompt h :
  process_entities w self [] prompt h = (Returns [], h)
  /\ (forall idx entity results h0,
        loop_body w self prompt (len (@nil string)) idx entity results h0
        = (Raises (mkExc ZeroDivisionError "division by zero"), h0)).
Proof.
  split; reflexivity.
Qed.

(** The iteration for an entity whose search text is empty. *)
Lemma sentinel_step w self prompt pre entity post h results hE hS :
  run_before w self prompt pre entity post h = (Returns results, hE) ->
  search w (web_searcher self) entity prompt
    (hE +++ [Progress (progress_at pre entity post)]) = (Returns "", hS) ->
  process_entities w self (pre ++ entity :: post) prompt h
  = run_after w self prompt pre entity post
      (results ++ [{| Entity := entity;
                      Extracted_Information := "No data found" |}])
      (hS +++ [Sleep (1 # 2)])
  /\ (forall rows h',
        process_entities w self (pre ++ entity :: post) prompt h
        = (Returns rows, h') ->
        nth_error rows (length pre)
        = Some {| Entity := entity; Extracted_Information := "No data found" |}).
Proof.
  intros Hpre Hsearch.
  assert (Hrun : process_entities w self (pre ++ entity :: post) prompt h
                 = run_after w self prompt pre entity post
                     (results ++ [mkRow entity "No data found"])
                     (hS +++ [Sleep (1 # 2)])).
  { eapply process_entities_through; [exact Hpre | ].
    rewrite (loop_body_unfold _ _ _ _ _ _ _ _
               (entity_count_positive pre entity post)).
    unfold progress_at in Hsearch. rewrite Hsearch. reflexivity. }
  split; [exact Hrun | ].
  intros rows h' Hret. rewrite Hrun in Hret.
  eapply row_of_entity; eassumption.
Qed.

(** C2.  In a run on [pre ++ entity :: post] that reaches [entity]: if
    the search for [entity] returns the empty text, the iteration
    appends the row [{entity, No data found}], which is the row of
    [entity] in the final result, and it makes no completion request:
    the requests recorded after the iteration are those recorded before
    it. *)
Theorem sentinel_when_search_empty
    w self prompt pre entity post h results hE hS :
  run_before w self prompt pre entity post h = (Returns results, hE) ->
  search w (web_searcher self) entity prompt
    (hE +++ [Progress (progress_at pre entity post)]) = (Returns "", hS) ->
  process_entities w self (pre ++ entity :: post) prompt h
  = run_after w self prompt pre entity post
      (results ++ [{| Entity := entity;
                      Extracted_Information := "No data found" |}])
      (hS +++ [Sleep (1 # 2)])
  /\ (forall rows h',
        process_entities w self (pre ++ entity :: post) prompt h
        = (Returns rows, h') ->
        nth_error rows (length pre)
        = Some {| Entity := entity; Extracted_Information := "No data found" |})
  /\ chat_requests (hS +++ [Sleep (1 # 2)]) = chat_requests hE.
Proof.
  intros Hpre Hsearch.
  destruct (sentinel_step _ _ _ _ _ _ _ _ _ _ Hpre Hsearch) as (Hrun & Hrow).
  split; [exact Hrun | split; [exact Hrow | ] ].
  destruct (search_history _ _ _ _ _ _ _ Hsearch) as (events & -> & Hev).
  rewrite !chat_requests_app, Hev. simpl. rewrite !app_nil_r. reflexivity.
Qed.

Lemma sentinel_when_search_empty_witness :
  exists results hE hS,
    run_before Scenario.acme_world (Scenario.processor Scenario.jane_client)
      Scenario.default_prompt ["Acme Corp"] "Globex" ["Initech"] []
    = (Returns results, hE)
    /\ search Scenario.acme_world (mkWebSearcher "key") "Globex"
         Scenario.default_prompt
         (hE +++ [Progress (progress_at ["Acme Corp"] "Globex" ["Initech"])])
       = (Returns "", hS)
    /\ (forall rows h',
          process_entities Scenario.acme_world
            (Scenario.processor Scenario.jane_client)
            ["Acme Corp"; "Globex"; "Initech"] Scenario.default_prompt []
          = (Returns rows, h') ->
          nth_error rows 1
          = Some {| Entity := "Globex";
                    Extracted_Information := "No data found" |})
    /\ chat_requests (hS +++ [Sleep (1 # 2)]) = chat_requests hE.
Proof.
  eexists. eexists. eexists.
  split; [vm_compute; reflexivity | ].
  split; [vm_compute; reflexivity | ].
  apply (proj2 (sentinel_when_search_empty Scenario.acme_world
           (Scenario.processor Scenario.jane_client) Scenario.default_prompt
           ["Acme Corp"] "Globex" ["Initech"] [] _ _ _
           ltac:(vm_compute; reflexivity) ltac:(vm_compute; reflexivity))).
Defined.

(** C3 (the code departs from it).  A status 200 answer whose one
    organic result has a [null] snippet makes [str.join] raise
    TypeError; [search] catches RequestException only, so the exception
    leaves [search] and [process_entities]: the run ends at the first
    entity, the second one is never searched, no row is returned. *)
Theorem malformed_response_escapes :
  process_entities Scenario.null_snippet_world
    (Scenario.processor Scenario.jane_client)
    ["Acme Corp"; "Globex"] Scenario.default_prompt []
  = (Raises (mkExc TypeError
       "sequence item 0: expected str instance, NoneType found"),
     [Progress (1 # 2);
      HttpGet search_url
        {| q := "Who is the ceo of Acme Corp?"; api_key := "key"; num := 5 |}]).
Proof. vm_compute. reflexivity. Qed.

(** C4 as stated fails: when the provider sends six organic results,
    [search] joins the six snippets, not five of them. *)
Lemma search_six_results_not_capped :
  expected_snippets (JDict [("organic_results", JList Scenario.six_results)])
  = Some ["s1"; "s2"; "s3"; "s4"; "s5"; "s6"]
  /\ search Scenario.six_results_world (mkWebSearcher "key") "Acme Corp"
       Scenario.default_prompt []
     = (Returns (String.concat newline ["s1"; "s2"; "s3"; "s4"; "s5"; "s6"]),
        [HttpGet search_url
           {| q := "Who is the ceo of Acme Corp?"; api_key := "key"; num := 5 |}])
  /\ String.concat newline ["s1"; "s2"; "s3"; "s4"; "s5"; "s6"]
     <> text_of_up_to_five ["s1"; "s2"; "s3"; "s4"; "s5"; "s6"].
Proof.
  split; [reflexivity | split; [vm_compute; reflexivity | ] ].
  vm_compute. discriminate.
Qed.

(** C4 (as amended).  On a response that [raise_for_status] accepts and
    whose body has the expected shape, [search] returns the snippets of
    all the organic results of the body, in the order of the body,
    joined with newlines, a missing snippet counting as the empty
    string; it asks for five results and does not cut the list itself,
    so this is the text of up to five snippets when the provider sends
    at most five.  For the results [{snippet:a}, {snippet:b}, {}] it
    returns a, newline, b, newline; for a body without [organic_results]
    it returns the empty string. *)
Theorem search_joins_all_snippets w self entity prompt h query :
  str_format prompt entity = Returns query ->
  (forall decoded snippets,
     answered_with w self h query decoded ->
     expected_snippets decoded = Some snippets ->
     search w self entity prompt h
     = (Returns (String.concat newline snippets),
        h +++ [HttpGet search_url (search_params self query)])
     /\ ((length snippets <= 5)%nat ->
         String.concat newline snippets = text_of_up_to_five snippets))
  /\ (answered_with w self h query Scenario.join_example ->
      search w self entity prompt h
      = (Returns ("a" ++ newline ++ "b" ++ newline),
         h +++ [HttpGet search_url (search_params self query)]))
  /\ (forall entries,
        lookup "organic_results" entries = None ->
        answered_with w self h query (JDict entries) ->
        search w self entity prompt h
        = (Returns "", h +++ [HttpGet search_url (search_params self query)])).
Proof.
  intros Hf. split; [ | split].
  - intros decoded snippets Ha Hs. split.
    + rewrite (search_answered _ _ _ _ _ _ _ Hf Ha).
      rewrite (snippets_text_expected _ _ Hs). reflexivity.
    + intros Hlen. unfold text_of_up_to_five.
      rewrite firstn_all2 by exact Hlen. reflexivity.
  - intros Ha. rewrite (search_answered _ _ _ _ _ _ _ Hf Ha). reflexivity.
  - intros entries Hl Ha. rewrite (search_answered _ _ _ _ _ _ _ Hf Ha).
    unfold snippets_text, get. rewrite Hl. reflexivity.
Qed.

Lemma search_joins_all_snippets_witness :
  search Scenario.acme_world (mkWebSearcher "key") "Acme Corp"
    Scenario.default_prompt []
  = (Returns (String.concat newline ["Jane Doe is the CEO of Acme Corp."; ""]),
     [HttpGet search_url
        (search_params (mkWebSearcher "key") "Who is the ceo of Acme Corp?")])
  /\ ((length ["Jane Doe is the CEO of Acme Corp."; ""] <= 5)%nat ->
      String.concat newline ["Jane Doe is the CEO of Acme Corp."; ""]
      = text_of_up_to_five ["Jane Doe is the CEO of Acme Corp."; ""]).
Proof.
  apply (proj1 (search_joins_all_snippets Scenario.acme_world
                  (mkWebSearcher "key") "Acme Corp" Scenario.default_prompt []
                  "Who is the ceo of Acme Corp?" eq_refl)
           (JDict [("organic_results",
                    JList [Scenario.result_with "Jane Doe is the CEO of Acme Corp.";
                           JDict [("title", JStr "Acme Corp")]])])).
  - eexists. split; [reflexivity | split; reflexivity].
  - reflexivity.
Defined.

(** C5.  When the completion service returns, [extract_information]
    returns the content of the first choice with the whitespace at both
    ends removed: the content is that result between two runs of
    whitespace, and the result neither starts nor ends with whitespace.
    For the content [  answer text \n] the result is [answer text]. *)
Theorem extract_information_strips
    self entity prompt search_results h formatted content rest :
  str_format prompt entity = Returns formatted ->
  completions (groq_client self) h (extraction_request formatted search_results)
  = CreateReturns ({| message_content := Some content |} :: rest) ->
  extract_information self entity prompt search_results h
  = (Returns (strip content),
     h +++ [ChatCreate (extraction_request formatted search_results)])
  /\ (exists l r,
        content = l ++ strip content ++ r
        /\ all_space l = true /\ all_space r = true
        /\ starts_with_space (strip content) = false
        /\ ends_with_space (strip content) = false)
  /\ (content = "  answer text " ++ newline -> strip content = "answer text").
Proof.
  intros Hf Hc. split; [ | split].
  - rewrite (extract_information_unfold _ _ _ _ _ _ Hf). cbv zeta.
    rewrite Hc. reflexivity.
  - apply strip_spec.
  - intros ->. reflexivity.
Qed.

Lemma extract_information_strips_witness :
  extract_information
    (mkLLMProcessor
       (mkGroqClient (fun _ _ =>
          CreateReturns [mkChoice (Some ("  answer text " ++ newline))])))
    "Acme Corp" Scenario.default_prompt "Jane Doe is the CEO." []
  = (Returns "answer text",
     [ChatCreate (extraction_request "Who is the ceo of Acme Corp?"
                    "Jane Doe is the CEO.")]).
Proof.
  apply (proj1 (extract_information_strips
                  (mkLLMProcessor
                     (mkGroqClient (fun _ _ =>
                        CreateReturns
                          [mkChoice (Some ("  answer text " ++ newline))])))
                  "Acme Corp" Scenario.default_prompt "Jane Doe is the CEO." []
                  "Who is the ceo of Acme Corp?" ("  answer text " ++ newline) []
                  eq_refl eq_refl)).
Defined.

(** The transport failures are the exceptions of [requests.get] and the
    statuses from 400 to 599. *)
Lemma transport_error_cases (o : GetOutcome) (e : Exc) :
  transport_error o = Some e <->
  (exists text, o = GetRaises text /\ e = mkExc RequestException text)
  \/ (exists r, o = GetReturns r /\ 400 <= status_code r < 600
                /\ raise_for_status r = Raises e).
Proof.
  unfold transport_error. split.
  - destruct o as [text | r].
    + intros H; inversion H; subst. left. eauto.
    + destruct (raise_for_status r) as [ [] | e' | ] eqn:Hr; try discriminate.
      intros H; inversion H; subst. right. exists r.
      split; [reflexivity | split; [ | exact Hr] ].
      unfold raise_for_status in Hr.
      destruct (Z.leb_spec 400 (status_code r));
        destruct (Z.ltb_spec (status_code r) 500);
        destruct (Z.leb_spec 500 (status_code r));
        destruct (Z.ltb_spec (status_code r) 600);
        simpl in Hr; try discriminate; lia.
  - intros [(text & -> & ->) | (r & -> & _ & ->)]; reflexivity.
Qed.

(** C6 as stated fails: a response with status 300, which is not a 2xx
    status, and a body of the expected shape is not treated as a
    failure; [search] returns its snippet and reports nothing. *)
Lemma status_300_not_soft_failed :
  (exists r,
     http Scenario.multiple_choices_world [] search_url
       (search_params (mkWebSearcher "key") "Who is the ceo of Acme Corp?")
     = GetReturns r
     /\ status_code r = 300
     /\ raise_for_status r = Returns tt)
  /\ search Scenario.multiple_choices_world (mkWebSearcher "key") "Acme Corp"
       Scenario.default_prompt []
     = (Returns "a",
        [HttpGet search_url
           {| q := "Who is the ceo of Acme Corp?"; api_key := "key"; num := 5 |}])
  /\ fst (search Scenario.multiple_choices_world (mkWebSearcher "key")
            "Acme Corp" Scenario.default_prompt [])
     <> Returns "".
Proof.
  split; [eexists; repeat split | ].
  split; [vm_compute; reflexivity | vm_compute; discriminate].
Qed.

(** C6 (as amended).  In a run on [pre ++ entity :: post] that reaches
    [entity]: if the search request for [entity] fails at the transport
    level, that is [requests.get] raises or the status is from 400 to
    599, then [search] shows the error in the sidebar and returns the
    empty text instead of raising; the row of [entity] is
    [{entity, No data found}]; the rows of the entities before it are
    kept and the loop goes on with the entities after it. *)
Theorem search_failure_gives_sentinel
    w self prompt pre entity post h results hE query e :
  run_before w self prompt pre entity post h = (Returns results, hE) ->
  str_format prompt entity = Returns query ->
  transport_error
    (http w (hE +++ [Progress (progress_at pre entity post)]) search_url
       (search_params (web_searcher self) query)) = Some e ->
  search w (web_searcher self) entity prompt
    (hE +++ [Progress (progress_at pre entity post)])
  = (Returns "",
     (hE +++ [Progress (progress_at pre entity post)])
     +++ [HttpGet search_url (search_params (web_searcher self) query);
          SidebarError ("Error during web search: " ++ exc_text e)])
  /\ process_entities w self (pre ++ entity :: post) prompt h
     = run_after w self prompt pre entity post
         (results ++ [{| Entity := entity;
                         Extracted_Information := "No data found" |}])
         (((hE +++ [Progress (progress_at pre entity post)])
           +++ [HttpGet search_url (search_params (web_searcher self) query);
                SidebarError ("Error during web search: " ++ exc_text e)])
          +++ [Sleep (1 # 2)])
  /\ (forall rows h',
        process_entities w self (pre ++ entity :: post) prompt h
        = (Returns rows, h') ->
        firstn (length pre) rows = results
        /\ nth_error rows (length pre)
           = Some {| Entity := entity;
                     Extracted_Information := "No data found" |}).
Proof.
  intros Hpre Hf Ht.
  pose proof (search_transport_error _ _ _ _ _ _ _ Hf Ht) as Hsearch.
  destruct (sentinel_step w self prompt pre entity post h results hE _
              Hpre Hsearch) as (Hrun & Hrow).
  split; [exact Hsearch | split; [exact Hrun | ] ].
  intros rows h' Hret. split; [ | eauto].
  rewrite Hrun in Hret. eapply rows_around_entity; eassumption.
Qed.

Lemma search_failure_gives_sentinel_witness :
  exists results hE,
    run_before Scenario.flaky_world (Scenario.processor Scenario.jane_client)
      Scenario.default_prompt ["Acme Corp"] "Globex" ["Initech"] []
    = (Returns results, hE)
    /\ process_entities Scenario.flaky_world
         (Scenario.processor Scenario.jane_client)
         ["Acme Corp"; "Globex"; "Initech"] Scenario.default_prompt []
       = (Returns [{| Entity := "Acme Corp"; Extracted_Information := "Jane Doe" |};
                   {| Entity := "Globex"; Extracted_Information := "No data found" |};
                   {| Entity := "Initech"; Extracted_Information := "Jane Doe" |}],
          snd (process_entities Scenario.flaky_world
                 (Scenario.processor Scenario.jane_client)
                 ["Acme Corp"; "Globex"; "Initech"] Scenario.default_prompt []))
    /\ forall rows h',
         process_entities Scenario.flaky_world
           (Scenario.processor Scenario.jane_client)
           (["Acme Corp"] ++ "Globex" :: ["Initech"]) Scenario.default_prompt []
         = (Returns rows, h') ->
         firstn 1 rows = results
         /\ nth_error rows 1
            = Some {| Entity := "Globex";
                      Extracted_Information := "No data found" |}.
Proof.
  eexists. eexists.
  split; [vm_compute; reflexivity | ].
  split; [vm_compute; reflexivity | ].
  apply (search_failure_gives_sentinel Scenario.flaky_world
           (Scenario.processor Scenario.jane_client) Scenario.default_prompt
           ["Acme Corp"] "Globex" ["Initech"] [] _ _
           "Who is the ceo of Globex?"
           (mkExc RequestException "Connection aborted.")
           ltac:(vm_compute; reflexivity) eq_refl eq_refl).
Defined.

(** The iteration for an entity whose search text is not empty and
    whose extraction returns [info]. *)
Lemma extraction_step w self prompt pre entity post h results hE text hS info hX :
  run_before w self prompt pre entity post h = (Returns results, hE) ->
  search w (web_searcher self) entity prompt
    (hE +++ [Progress (progress_at pre entity post)]) = (Returns text, hS) ->
  truthy text = true ->
  extract_information (llm_processor self) entity prompt text hS
  = (Returns info, hX) ->
  process_entities w self (pre ++ entity :: post) prompt h
  = run_after w self prompt pre entity post
      (results ++ [{| Entity := entity; Extracted_Information := info |}])
      (hX +++ [Sleep (1 # 2)])
  /\ (forall rows h',
        process_entities w self (pre ++ entity :: post) prompt h
        = (Returns rows, h') ->
        nth_error rows (length pre)
        = Some {| Entity := entity; Extracted_Information := info |}).
Proof.
  intros Hpre Hsearch Htext Hextract.
  assert (Hrun : process_entities w self (pre ++ entity :: post) prompt h
                 = run_after w self prompt pre entity post
                     (results ++ [mkRow entity info]) (hX +++ [Sleep (1 # 2)])).
  { eapply process_entities_through; [exact Hpre | ].
    rewrite (loop_body_unfold _ _ _ _ _ _ _ _
               (entity_count_positive pre entity post)).
    unfold progress_at in Hsearch. rewrite Hsearch, Htext, Hextract.
    reflexivity. }
  split; [exact Hrun | ].
  intros rows h' Hret. rewrite Hrun in Hret.
  eapply row_of_entity; eassumption.
Qed.

(** C7.  In a run on [pre ++ entity :: post] that reaches [entity] with
    a non-empty search text: if the completion call raises, whatever the
    exception, [extract_information] shows the error in the sidebar and
    returns the empty string; the row of [entity] is [{entity, ""}],
    which is not the row [{entity, No data found}], and the loop goes on
    with the entities after it. *)
Theorem extraction_failure_gives_empty_row
    w self prompt pre entity post h results hE text hS formatted e :
  run_before w self prompt pre entity post h = (Returns results, hE) ->
  search w (web_searcher self) entity prompt
    (hE +++ [Progress (progress_at pre entity post)]) = (Returns text, hS) ->
  truthy text = true ->
  str_format prompt entity = Returns formatted ->
  completions (groq_client (llm_processor self)) hS
    (extraction_request formatted text) = CreateRaises e ->
  extract_information (llm_processor self) entity prompt text hS
  = (Returns "",
     hS +++ [ChatCreate (extraction_request formatted text);
             SidebarError ("Error during LLM extraction: " ++ exc_text e)])
  /\ process_entities w self (pre ++ entity :: post) prompt h
     = run_after w self prompt pre entity post
         (results ++ [{| Entity := entity; Extracted_Information := "" |}])
         ((hS +++ [ChatCreate (extraction_request formatted text);
                   SidebarError ("Error during LLM extraction: " ++ exc_text e)])
          +++ [Sleep (1 # 2)])
  /\ (forall rows h',
        process_entities w self (pre ++ entity :: post) prompt h
        = (Returns rows, h') ->
        nth_error rows (length pre)
        = Some {| Entity := entity; Extracted_Information := "" |})
  /\ {| Entity := entity; Extracted_Information := "" |}
     <> {| Entity := entity; Extracted_Information := "No data found" |}.
Proof.
  intros Hpre Hsearch Htext Hf Hc.
  assert (Hextract :
            extract_information (llm_processor self) entity prompt text hS
            = (Returns "",
               hS +++ [ChatCreate (extraction_request formatted text);
                       SidebarError ("Error during LLM extraction: "
                                     ++ exc_text e)])).
  { rewrite (extract_information_unfold _ _ _ _ _ _ Hf). cbv zeta.
    rewrite Hc. reflexivity. }
  destruct (extraction_step _ _ _ _ _ _ _ _ _ _ _ _ _
              Hpre Hsearch Htext Hextract) as (Hrun & Hrow).
  repeat split; try assumption. discriminate.
Qed.

Lemma extraction_failure_gives_empty_row_witness :
  process_entities Scenario.acme_world
    (Scenario.processor Scenario.failing_client)
    ([] ++ "Acme Corp" :: ["Globex"]) Scenario.default_prompt []
  = (Returns [{| Entity := "Acme Corp"; Extracted_Information := "" |};
              {| Entity := "Globex"; Extracted_Information := "No data found" |}],
     snd (process_entities Scenario.acme_world
            (Scenario.processor Scenario.failing_client)
            ["Acme Corp"; "Globex"] Scenario.default_prompt []))
  /\ forall rows h',
       process_entities Scenario.acme_world
         (Scenario.processor Scenario.failing_client)
         ([] ++ "Acme Corp" :: ["Globex"]) Scenario.default_prompt []
       = (Returns rows, h') ->
       nth_error rows 0
       = Some {| Entity := "Acme Corp"; Extracted_Information := "" |}.
Proof.
  split; [vm_compute; reflexivity | ].
  apply (proj1 (proj2 (proj2
    (extraction_failure_gives_empty_row Scenario.acme_world
       (Scenario.processor Scenario.failing_client) Scenario.default_prompt
       [] "Acme Corp" ["Globex"] [] _ _ _ _
       "Who is the ceo of Acme Corp?" (mkExc APIError "Connection error.")
       ltac:(vm_compute; reflexivity) ltac:(vm_compute; reflexivity)
       eq_refl eq_refl eq_refl)))).
Defined.

(** C8 as stated fails: with the template [Who is the ceo of {entity}}?]
    and a search text that is not empty, formatting the prompt raises
    ValueError before the [try] of [extract_information] is entered: no
    message is built and no completion request is made. *)
Lemma extract_information_stray_brace_no_request :
  truthy "Jane Doe is the CEO." = true
  /\ extract_information (mkLLMProcessor Scenario.jane_client) "Acme Corp"
       Scenario.stray_brace_prompt "Jane Doe is the CEO." []
     = (Raises (mkExc ValueError "Single '}' encountered in format string"),
        [])
  /\ ~ (exists outcome h' request after,
          extract_information (mkLLMProcessor Scenario.jane_client)
            "Acme Corp" Scenario.stray_brace_prompt "Jane Doe is the CEO." []
          = (outcome, h')
          /\ h' = [] +++ ChatCreate request :: after).
Proof.
  split; [reflexivity | split; [vm_compute; reflexivity | ] ].
  intros (outcome & h' & request & after & Hrun & Hh).
  vm_compute in Hrun. inversion Hrun; subst. discriminate.
Qed.

(** C8 (as amended).  For every entity, every prompt whose substitution
    for the entity succeeds and every search text, [extract_information]
    makes exactly one completion request, and it is this one: the model
    [mixtral-8x7b-32768], two messages, the fixed system message and the
    user message holding the formatted prompt and the whole search
    text, [max_tokens] 150 and [temperature] one half. *)
Theorem extract_information_request
    self entity prompt search_results h formatted :
  str_format prompt entity = Returns formatted ->
  exists outcome h',
    extract_information self entity prompt search_results h = (outcome, h')
    /\ exists request after,
         h' = h +++ ChatCreate request :: after
         /\ chat_requests after = []
         /\ request
            = {| model := "mixtral-8x7b-32768";
                 messages :=
                   [{| role := "system";
                       content := "You are a helpful assistant that extracts specific information from web search results." |};
                    {| role := "user";
                       content :=
                         "Extract information from the following search results based on the prompt: '"
                         ++ formatted ++ "'" ++ newline ++ newline
                         ++ "Search Results:" ++ newline ++ search_results
                         ++ newline ++ newline ++ "Extracted Information:" |}];
                 max_tokens := 150;
                 temperature := 1 # 2 |}
         /\ length (messages request) = 2%nat.
Proof.
  intros Hf. rewrite (extract_information_unfold _ _ _ _ _ _ Hf). cbv zeta.
  destruct (completions _ _ _) as [e | [|choice rest]];
    [ | | destruct (message_content choice)];
    do 2 eexists; (split; [reflexivity | ]);
    do 2 eexists; repeat split.
Qed.

Lemma extract_information_request_witness :
  exists outcome h',
    extract_information (mkLLMProcessor Scenario.jane_client) "Acme Corp"
      Scenario.default_prompt "Jane Doe is the CEO." [] = (outcome, h')
    /\ exists request after,
         h' = [] +++ ChatCreate request :: after
         /\ chat_requests after = []
         /\ request
            = {| model := "mixtral-8x7b-32768";
                 messages :=
                   [{| role := "system";
                       content := "You are a helpful assistant that extracts specific information from web search results." |};
                    {| role := "user";
                       content :=
                         "Extract information from the following search results based on the prompt: '"
                         ++ "Who is the ceo of Acme Corp?" ++ "'" ++ newline ++ newline
                         ++ "Search Results:" ++ newline ++ "Jane Doe is the CEO."
                         ++ newline ++ newline ++ "Extracted Information:" |}];
                 max_tokens := 150;
                 temperature := 1 # 2 |}
         /\ length (messages request) = 2%nat.
Proof.
  apply (extract_information_request (mkLLMProcessor Scenario.jane_client)
           "Acme Corp" Scenario.default_prompt "Jane Doe is the CEO." []
           "Who is the ceo of Acme Corp?" eq_refl).
Defined.

(** C9.  For the entities Acme Corp and Globex and the prompt
    [Who is the ceo of {entity}?]: if the search for Acme Corp is
    answered with snippets that give a non-empty text and the model
    returns [Jane Doe], while the search for Globex is answered without
    organic results, then [process_entities] returns exactly the rows
    [{Acme Corp, Jane Doe}] and [{Globex, No data found}], in that
    order. *)
Theorem end_to_end_acme_globex w self h :
  (forall h', exists decoded snippets,
     answered_with w (web_searcher self) h' "Who is the ceo of Acme Corp?" decoded
     /\ expected_snippets decoded = Some snippets
     /\ truthy (String.concat newline snippets) = true) ->
  (forall h' request, exists rest,
     completions (groq_client (llm_processor self)) h' request
     = CreateReturns ({| message_content := Some "Jane Doe" |} :: rest)) ->
  (forall h', exists decoded,
     answered_with w (web_searcher self) h' "Who is the ceo of Globex?" decoded
     /\ expected_snippets decoded = Some []) ->
  exists h',
    process_entities w self ["Acme Corp"; "Globex"]
      "Who is the ceo of {entity}?" h
    = (Returns [{| Entity := "Acme Corp"; Extracted_Information := "Jane Doe" |};
                {| Entity := "Globex"; Extracted_Information := "No data found" |}],
       h').
Proof.
  intros Hacme Hmodel Hglobex.
  assert (Hfa : str_format "Who is the ceo of {entity}?" "Acme Corp"
                = Returns "Who is the ceo of Acme Corp?") by reflexivity.
  assert (Hfg : str_format "Who is the ceo of {entity}?" "Globex"
                = Returns "Who is the ceo of Globex?") by reflexivity.
  assert (Hn : 0 < len ["Acme Corp"; "Globex"]) by reflexivity.
  unfold process_entities. cbv zeta. cbn [for_enumerate]. unfold bind.
  (* Acme Corp: snippets, then the model's answer *)
  rewrite (loop_body_unfold _ _ _ _ _ _ _ _ Hn).
  match goal with
  | |- context [search w (web_searcher self) "Acme Corp" _ ?hA] =>
      destruct (Hacme hA) as (decoded & snippets & Ha & Hs & Ht);
      rewrite (search_answered _ _ _ _ _ _ _ Hfa Ha)
  end.
  rewrite (snippets_text_expected _ _ Hs), Ht.
  rewrite (extract_information_unfold _ _ _ _ _ _ Hfa). cbv zeta.
  match goal with
  | |- context [completions _ ?hM ?request] =>
      destruct (Hmodel hM request) as (rest & ->)
  end.
  cbn [message_content].
  (* Globex: no organic results *)
  rewrite (loop_body_unfold _ _ _ _ _ _ _ _ Hn).
  match goal with
  | |- context [search w (web_searcher self) "Globex" _ ?hG] =>
      destruct (Hglobex hG) as (decodedG & Hg & HsG);
      rewrite (search_answered _ _ _ _ _ _ _ Hfg Hg)
  end.
  rewrite (snippets_text_expected _ _ HsG).
  cbn [String.concat truthy]. unfold ret. eexists. reflexivity.
Qed.

Lemma end_to_end_acme_globex_witness :
  exists h',
    process_entities Scenario.acme_world (Scenario.processor Scenario.jane_client)
      ["Acme Corp"; "Globex"] "Who is the ceo of {entity}?" []
    = (Returns [{| Entity := "Acme Corp"; Extracted_Information := "Jane Doe" |};
                {| Entity := "Globex"; Extracted_Information := "No data found" |}],
       h').
Proof.
  apply (end_to_end_acme_globex Scenario.acme_world
           (Scenario.processor Scenario.jane_client) []).
  - intros h'. eexists. eexists.
    split; [eexists; split; [reflexivity | split; reflexivity] | ].
    split; reflexivity.
  - intros h' request. eexists. reflexivity.
  - intros h'. eexists.
    split; [eexists; split; [reflexivity | split; reflexivity] | ].
    reflexivity.
Defined.

(** ** More facts about the adapters *)

Lemma format_scan_text entity c rest :
  format_scan entity InText (String c rest)
  = if Ascii.eqb c "{" then
      match rest with
      | EmptyString =>
          Raises (mkExc ValueError "Single '{' encountered in format string")
      | String c' rest' =>
          if Ascii.eqb c' "{"
          then prepend "{" (format_scan entity InText rest')
          else format_scan entity (InField "") rest
      end
    else if Ascii.eqb c "}" then
      match rest with
      | EmptyString =>
          Raises (mkExc ValueError "Single '}' encountered in format string")
      | String c' rest' =>
          if Ascii.eqb c' "}"
          then prepend "}" (format_scan entity InText rest')
          else Raises (mkExc ValueError
                 "Single '}' encountered in format string")
      end
    else prepend c (format_scan entity InText rest).
Proof.
  destruct c as [[] [] [] [] [] [] [] []]; try reflexivity;
    destruct rest as [|[[] [] [] [] [] [] [] []] rest']; reflexivity.
Qed.

Lemma format_scan_field entity name c rest :
  format_scan entity (InField name) (String c rest)
  = if Ascii.eqb c "}" then
      match get_field entity name with
      | Returns v => prepend_str v (format_scan entity InText rest)
      | other => other
      end
    else if Ascii.eqb c "{" then
      Raises (mkExc ValueError "unexpected '{' in field name")
    else if opens_field_suffix c then NotModelled
    else format_scan entity (InField (name ++ String c EmptyString)) rest.
Proof.
  destruct c as [[] [] [] [] [] [] [] []]; reflexivity.
Qed.

Lemma get_field_class entity name :
  no_request_exception (get_field entity name).
Proof.
  unfold no_request_exception, get_field. intros e.
  destruct (String.eqb name "entity"); [discriminate | ].
  destruct (String.eqb name ""); [intros H; inversion H; reflexivity | ].
  destruct (get_integer name) as [ | | i];
    intros H; inversion H; reflexivity.
Qed.

Lemma prepend_class c o :
  no_request_exception o -> no_request_exception (prepend c o).
Proof.
  unfold no_request_exception. destruct o; simpl; intros Ho e' H;
    [discriminate | auto | discriminate].
Qed.

Lemma prepend_str_class v o :
  no_request_exception o -> no_request_exception (prepend_str v o).
Proof.
  unfold no_request_exception. destruct o; simpl; intros Ho e' H;
    [discriminate | auto | discriminate].
Qed.

Lemma format_scan_class entity : forall n s st,
  (String.length s <= n)%nat ->
  no_request_exception (format_scan entity st s).
Proof.
  induction n as [|n IH]; intros s st Hlen.
  - destruct s; [ | simpl in Hlen; lia].
    destruct st; simpl; intros e H; [discriminate | inversion H; reflexivity].
  - destruct s as [|c rest].
    + destruct st; simpl; intros e H; [discriminate | inversion H; reflexivity].
    + simpl in Hlen. destruct st as [|name].
      * rewrite format_scan_text.
        destruct (Ascii.eqb c "{").
        { destruct rest as [|c' rest'];
            [intros e H; inversion H; reflexivity | ].
          simpl in Hlen.
          destruct (Ascii.eqb c' "{").
          - apply prepend_class, IH. lia.
          - apply IH. simpl. lia. }
        destruct (Ascii.eqb c "}").
        { destruct rest as [|c' rest'];
            [intros e H; inversion H; reflexivity | ].
          simpl in Hlen.
          destruct (Ascii.eqb c' "}").
          - apply prepend_class, IH. lia.
          - intros e H; inversion H; reflexivity. }
        apply prepend_class, IH. lia.
      * rewrite format_scan_field.
        destruct (Ascii.eqb c "}").
        { pose proof (get_field_class entity name) as Hg.
          destruct (get_field entity name) as [v | e0 | ].
          - apply prepend_str_class, IH. lia.
          - exact Hg.
          - intros e H; discriminate. }
        destruct (Ascii.eqb c "{");
          [intros e H; inversion H; reflexivity | ].
        destruct (opens_field_suffix c); [intros e H; discriminate | ].
        apply IH. lia.
Qed.

(** [str.format] raises no [RequestException]. *)
Lemma str_format_class prompt entity e :
  str_format prompt entity = Raises e -> is_request_exception e = false.
Proof.
  apply (format_scan_class entity (String.length prompt) prompt InText).
  lia.
Qed.

(** Where [search] ends and what it adds to the history, in every case:
    nothing when the query cannot be built; one GET, and the outcome of
    reading the body, when the answer is accepted; one GET and one
    sidebar message, with the empty text, otherwise. *)
Lemma search_shape w self entity prompt h o h' :
  search w self entity prompt h = (o, h') ->
  (exists query,
     str_format prompt entity = Returns query
     /\ ((h' = h +++ [HttpGet search_url (search_params self query)]
          /\ no_request_exception o)
         \/ (exists text,
               h' = h +++ [HttpGet search_url (search_params self query);
                           SidebarError ("Error during web search: " ++ text)]
               /\ o = Returns "")))
  \/ ((forall query, str_format prompt entity <> Returns query)
      /\ h' = h /\ no_request_exception o /\ forall text, o <> Returns text).
Proof.
  destruct (str_format prompt entity) as [query | e | ] eqn:Hf.
  - rewrite (search_unfold _ _ _ _ _ _ Hf). cbv zeta. intros H.
    left. exists query. split; [reflexivity | ].
    destruct (http w h search_url (search_params self query)) as [text | r].
    + inversion H; subst. right. rewrite app_two. eexists; split; reflexivity.
    + destruct (raise_for_status r) as [ [] | e | ] eqn:Hr.
      * destruct (body r) as [text | decoded].
        { inversion H; subst. right. rewrite app_two. eexists; split; reflexivity. }
        inversion H; subst. left. split; [reflexivity | ].
        intros e He. eapply snippets_text_class. eassumption.
      * inversion H; subst. right. rewrite app_two. eexists; split; reflexivity.
      * inversion H; subst. left. split; [reflexivity | ].
        intros e He. discriminate.
  - unfold search, try_except, bind, lift. rewrite Hf.
    rewrite (str_format_class _ _ _ Hf). intros H; inversion H; subst.
    right. repeat split; try discriminate.
    intros e' He. inversion He; subst. eapply str_format_class. eassumption.
  - unfold search, try_except, bind, lift. rewrite Hf.
    intros H; inversion H; subst.
    right. repeat split; discriminate.
Qed.

Lemma strip_trimmed (s : string) : trimmed (strip s).
Proof.
  destruct (strip_spec s) as (l & r & _ & _ & _ & Hs & He). split; assumption.
Qed.

(** Where [extract_information] ends and what it adds to the history,
    in every case. *)
Lemma extract_information_shape self entity prompt search_results h o h' :
  extract_information self entity prompt search_results h = (o, h') ->
  (exists formatted text,
     str_format prompt entity = Returns formatted
     /\ o = Returns text /\ trimmed text
     /\ (h' = h +++ [ChatCreate (extraction_request formatted search_results)]
         \/ (exists message,
               h' = h +++ [ChatCreate (extraction_request formatted search_results);
                           SidebarError ("Error during LLM extraction: "
                                         ++ message)]
               /\ text = "")))
  \/ ((forall formatted, str_format prompt entity <> Returns formatted)
      /\ h' = h /\ o = match str_format prompt entity with
                       | Returns _ => NotModelled
                       | Raises e => Raises e
                       | NotModelled => NotModelled
                       end).
Proof.
  destruct (str_format prompt entity) as [formatted | e | ] eqn:Hf.
  - rewrite (extract_information_unfold _ _ _ _ _ _ Hf). cbv zeta. intros H.
    left. exists formatted.
    destruct (completions _ _ _) as [e | [|choice rest]].
    + inversion H; subst. exists "".
      split; [reflexivity | split; [reflexivity | split; [split; reflexivity | ] ] ].
      right. eexists. split; reflexivity.
    + inversion H; subst. exists "".
      split; [reflexivity | split; [reflexivity | split; [split; reflexivity | ] ] ].
      right. eexists. split; reflexivity.
    + destruct (message_content choice) as [content | ].
      * inversion H; subst. exists (strip content).
        split; [reflexivity | split; [reflexivity | ] ].
        split; [apply strip_trimmed | left; reflexivity].
      * inversion H; subst. exists "".
        split; [reflexivity | split; [reflexivity | split; [split; reflexivity | ] ] ].
        right. eexists. split; reflexivity.
  - unfold extract_information, bind, lift. rewrite Hf.
    intros H; inversion H; subst. right. repeat split; discriminate.
  - unfold extract_information, bind, lift. rewrite Hf.
    intros H; inversion H; subst. right. repeat split; discriminate.
Qed.

Lemma strip_all_space (s : string) : all_space s = true -> strip s = "".
Proof.
  unfold strip. induction s as [|c s IH]; simpl; [reflexivity | ].
  intros H. apply andb_prop in H. destruct H as (Hc & Hs).
  rewrite Hc. auto.
Qed.

(** ** More facts about the loop *)

Lemma get_requests_app (h1 h2 : History) :
  get_requests (h1 +++ h2) = (get_requests h1 ++ get_requests h2)%list.
Proof.
  induction h1 as [|ev h1 IH]; simpl; [reflexivity | ].
  destruct ev; simpl; rewrite IH; reflexivity.
Qed.

Lemma progress_values_app (h1 h2 : History) :
  progress_values (h1 +++ h2)
  = (progress_values h1 ++ progress_values h2)%list.
Proof.
  induction h1 as [|ev h1 IH]; simpl; [reflexivity | ].
  destruct ev; simpl; rewrite IH; reflexivity.
Qed.

Lemma sleeps_app (h1 h2 : History) :
  sleeps (h1 +++ h2) = (sleeps h1 ++ sleeps h2)%list.
Proof.
  induction h1 as [|ev h1 IH]; simpl; [reflexivity | ].
  destruct ev; simpl; rewrite IH; reflexivity.
Qed.

Lemma sidebar_errors_app (h1 h2 : History) :
  sidebar_errors (h1 +++ h2)
  = (sidebar_errors h1 ++ sidebar_errors h2)%list.
Proof.
  induction h1 as [|ev h1 IH]; simpl; [reflexivity | ].
  destruct ev; simpl; rewrite IH; reflexivity.
Qed.

(** What an iteration that returns has done: one progress value, one
    GET with the formatted prompt, at most one completion request, one
    pause, and one row with a trimmed value. *)
Lemma loop_body_trace w self prompt n idx entity results h rows h' :
  0 < n ->
  loop_body w self prompt n idx entity results h = (Returns rows, h') ->
  exists query info events,
    str_format prompt entity = Returns query
    /\ rows = (results ++ [mkRow entity info])%list
    /\ trimmed info
    /\ h' = h +++ events
    /\ progress_values events = [Qmake (idx + 1) (Z.to_pos n)]
    /\ get_requests events
       = [(search_url, search_params (web_searcher self) query)]
    /\ sleeps events = [1 # 2].
Proof.
  intros Hn. rewrite (loop_body_unfold _ _ _ _ _ _ _ _ Hn).
  destruct (search _ _ _ _ _) as [[text | e | ] h2] eqn:Hsearch;
    try discriminate.
  destruct (search_shape _ _ _ _ _ _ _ Hsearch)
    as [(query & Hq & Hcase) | (_ & _ & _ & Hno)];
    [ | exfalso; eapply Hno; reflexivity].
  assert (Hh2 : exists tail,
             h2 = (h +++ [Progress (Qmake (idx + 1) (Z.to_pos n))])
                  +++ HttpGet search_url (search_params (web_searcher self) query)
                      :: tail
             /\ progress_values tail = [] /\ get_requests tail = []
             /\ sleeps tail = []).
  { destruct Hcase as [(-> & _) | (msg & -> & _)];
      eexists; repeat split; reflexivity. }
  destruct Hh2 as (tail & -> & Hp & Hg & Hs).
  destruct (truthy text).
  - destruct (extract_information _ _ _ _ _) as [[info | e | ] h3] eqn:Hx;
      try discriminate.
    intros H; inversion H; subst.
    destruct (extract_information_shape _ _ _ _ _ _ _ Hx)
      as [(formatted & text' & Hf & Ho & Ht & Hcase') | (Hno & _)];
      [ | exfalso; eapply Hno; eassumption].
    inversion Ho; subst text'.
    exists query, info.
    destruct Hcase' as [-> | (msg & -> & _)];
      (eexists; split; [exact Hq | split; [reflexivity | split; [exact Ht | ] ] ];
       split; [repeat rewrite <- app_assoc; reflexivity | ];
       repeat rewrite ?progress_values_app, ?get_requests_app, ?sleeps_app;
       simpl; rewrite Hp, Hg, Hs; repeat split; reflexivity).
  - intros H; inversion H; subst.
    exists query, "No data found".
    eexists; split; [exact Hq | split; [reflexivity | split; [split; reflexivity | ] ] ].
    split; [repeat rewrite <- app_assoc; reflexivity | ].
    repeat rewrite ?progress_values_app, ?get_requests_app, ?sleeps_app.
    simpl. rewrite Hp, Hg, Hs. repeat split; reflexivity.
Qed.


Lemma progress_seq_shift (idx : Z) (n : Z) (k : nat) :
  map (fun i => Qmake (idx + 1 + 1 + Z.of_nat i) (Z.to_pos n)) (seq 0 k)
  = map (fun i => Qmake (idx + 1 + Z.of_nat i) (Z.to_pos n)) (seq 1 k).
Proof.
  rewrite <- seq_shift, map_map. apply map_ext. intros i.
  f_equal. lia.
Qed.

(** What a loop that returns has done, entity by entity. *)
Lemma for_enumerate_trace w self prompt n entities :
  0 < n ->
  forall idx results h rows h',
    for_enumerate w self prompt n idx entities results h = (Returns rows, h') ->
    exists queries events,
      Forall2 (fun entity query => str_format prompt entity = Returns query)
        entities queries
      /\ h' = h +++ events
      /\ progress_values events
         = map (fun i => Qmake (idx + 1 + Z.of_nat i) (Z.to_pos n))
             (seq 0 (length entities))
      /\ get_requests events
         = map (fun query =>
                  (search_url, search_params (web_searcher self) query))
             queries
      /\ sleeps events = repeat (1 # 2) (length entities)
      /\ (Forall (fun row => trimmed (Extracted_Information row)) results ->
          Forall (fun row => trimmed (Extracted_Information row)) rows).
Proof.
  intros Hn. induction entities as [|entity rest IH];
    intros idx results h rows h' H.
  - simpl in H. inversion H; subst. exists [], [].
    rewrite app_nil_r. repeat split; auto.
  - cbn [for_enumerate] in H. unfold bind in H.
    destruct (loop_body w self prompt n idx entity results h)
      as [[rows1 | e | ] h1] eqn:Hb; try discriminate.
    destruct (loop_body_trace _ _ _ _ _ _ _ _ _ _ Hn Hb)
      as (query & info & ev1 & Hq & -> & Ht & -> & Hp1 & Hg1 & Hs1).
    destruct (IH _ _ _ _ _ H)
      as (queries & ev2 & Hqs & -> & Hp2 & Hg2 & Hs2 & Hrows).
    exists (query :: queries), (ev1 +++ ev2).
    split; [constructor; assumption | ].
    split; [rewrite app_assoc; reflexivity | ].
    rewrite progress_values_app, get_requests_app, sleeps_app.
    rewrite Hp1, Hg1, Hs1, Hp2, Hg2, Hs2.
    split; [ | split; [reflexivity | split; [reflexivity | ] ] ].
    + cbn [length seq map app]. rewrite Z.add_0_r.
      rewrite progress_seq_shift. reflexivity.
    + intros Hres. apply Hrows. apply Forall_app. split; [exact Hres | ].
      constructor; [exact Ht | constructor].
Qed.


(** A loop that raises does so in a search: the entities before it
    were processed, and the exception and the history are those of the
    search for the first entity that was not. *)
Lemma for_enumerate_raises w self prompt n entities :
  0 < n ->
  forall idx results h e h',
    for_enumerate w self prompt n idx entities results h = (Raises e, h') ->
    exists pre entity post rows hE,
      entities = (pre ++ entity :: post)%list
      /\ for_enumerate w self prompt n idx pre results h = (Returns rows, hE)
      /\ search w (web_searcher self) entity prompt
           (hE +++ [Progress (Qmake (idx + len pre + 1) (Z.to_pos n))])
         = (Raises e, h').
Proof.
  intros Hn. induction entities as [|entity rest IH];
    intros idx results h e h' H.
  - simpl in H. discriminate.
  - cbn [for_enumerate] in H. unfold bind in H.
    destruct (loop_body w self prompt n idx entity results h)
      as [[rows1 | e1 | ] h1] eqn:Hb; try discriminate.
    + destruct (IH _ _ _ _ _ H) as (pre & ent & post & rows & hE & -> & Hpre & Hs).
      exists (entity :: pre), ent, post, rows, hE.
      split; [reflexivity | split].
      * cbn [for_enumerate]. unfold bind. rewrite Hb. exact Hpre.
      * rewrite len_cons.
        replace (idx + (len pre + 1) + 1) with (idx + 1 + len pre + 1) by lia.
        exact Hs.
    + inversion H; subst.
      exists [], entity, rest, results, h.
      split; [reflexivity | split; [reflexivity | ] ].
      change (len (@nil string)) with 0. rewrite Z.add_0_r.
      rewrite (loop_body_unfold _ _ _ _ _ _ _ _ Hn) in Hb.
      destruct (search _ _ _ _ _) as [[text | e2 | ] h2] eqn:Hsearch;
        try discriminate.
      * exfalso.
        destruct (search_shape _ _ _ _ _ _ _ Hsearch)
          as [(query & Hq & _) | (_ & _ & _ & Hno)];
          [ | eapply Hno; reflexivity].
        destruct (truthy text); [ | discriminate].
        destruct (extract_information_returns (llm_processor self) entity
                    prompt text h2 query Hq) as (info & h3 & Hx).
        rewrite Hx in Hb. discriminate.
      * inversion Hb; subst. reflexivity.
Qed.

(** ** Further properties of the adapters *)

(** X1.  [search] never lets a [RequestException] out: whatever the
    template, the network and the body, an exception that leaves
    [search] is of another class. *)
Theorem search_never_raises_request_exception
    w self entity prompt h e h' :
  search w self entity prompt h = (Raises e, h') ->
  is_request_exception e = false.
Proof.
  intros H.
  destruct (search_shape _ _ _ _ _ _ _ H)
    as [(query & _ & [(_ & Hc) | (text & _ & Ho)]) | (_ & _ & Hc & _)];
    try discriminate; apply Hc; reflexivity.
Qed.

Lemma search_never_raises_request_exception_witness :
  is_request_exception
    (mkExc TypeError "sequence item 0: expected str instance, NoneType found")
  = false.
Proof.
  apply (search_never_raises_request_exception Scenario.null_snippet_world
           (mkWebSearcher "key") "Acme Corp" Scenario.default_prompt []
           _ [HttpGet search_url
                (search_params (mkWebSearcher "key")
                   "Who is the ceo of Acme Corp?")]).
  vm_compute. reflexivity.
Defined.

(** X2.  Whatever it ends in, [search] only adds to the history, makes
    no completion request, shows no progress and takes no pause.  When
    the prompt formats, it sends exactly one GET, without retry, to the
    search address with the formatted prompt as [q], the key of the
    searcher and [num] 5; when formatting the prompt raises, it sends
    none and raises that exception.  Nothing is said of the requests
    for a template outside the described part of [format]. *)
Theorem search_sends_at_most_one_get w self entity prompt h o h' :
  search w self entity prompt h = (o, h') ->
  exists events,
    h' = h +++ events
    /\ chat_requests events = []
    /\ progress_values events = []
    /\ sleeps events = []
    /\ match str_format prompt entity with
       | Returns query =>
           get_requests events
           = [("https://serpapi.com/search",
               {| q := query; api_key := serpapi_key self; num := 5 |})]
       | Raises e => get_requests events = [] /\ o = Raises e
       | NotModelled => True
       end.
Proof.
  intros H.
  destruct (search_shape _ _ _ _ _ _ _ H)
    as [(query & Hq & [(-> & _) | (text & -> & _)]) | (Hno & -> & _)].
  - eexists. split; [reflexivity | ]. rewrite Hq. repeat split.
  - eexists. split; [reflexivity | ]. rewrite Hq. repeat split.
  - exists []. rewrite app_nil_r. repeat split.
    destruct (str_format prompt entity) as [query | e | ] eqn:Hf.
    + exfalso. eapply Hno. reflexivity.
    + split; [reflexivity | ].
      unfold search, try_except, bind, lift in H. rewrite Hf in H.
      rewrite (str_format_class _ _ _ Hf) in H. inversion H; reflexivity.
    + exact I.
Qed.

Lemma search_sends_at_most_one_get_witness :
  exists events,
    snd (search Scenario.flaky_world (mkWebSearcher "key") "Globex"
           Scenario.default_prompt []) = [] +++ events
    /\ chat_requests events = []
    /\ progress_values events = []
    /\ sleeps events = []
    /\ get_requests events
       = [("https://serpapi.com/search",
           {| q := "Who is the ceo of Globex?"; api_key := "key"; num := 5 |})].
Proof.
  apply (search_sends_at_most_one_get Scenario.flaky_world
           (mkWebSearcher "key") "Globex" Scenario.default_prompt []
           (fst (search Scenario.flaky_world (mkWebSearcher "key") "Globex"
                   Scenario.default_prompt []))).
  vm_compute. reflexivity.
Defined.

(** X3.  [search] shows at most one message in the sidebar, and only
    together with the empty text: a search that returns a non-empty text
    or raises has shown no message. *)
Theorem search_error_only_with_empty_text w self entity prompt h o h' :
  search w self entity prompt h = (o, h') ->
  exists events,
    h' = h +++ events
    /\ (sidebar_errors events = []
        \/ (o = Returns ""
            /\ exists text,
                 sidebar_errors events
                 = ["Error during web search: " ++ text])).
Proof.
  intros H.
  destruct (search_shape _ _ _ _ _ _ _ H)
    as [(query & Hq & [(-> & _) | (text & -> & ->)]) | (Hno & -> & _)].
  - eexists. split; [reflexivity | left; reflexivity].
  - eexists. split; [reflexivity | right]. split; [reflexivity | ].
    exists text. reflexivity.
  - exists []. rewrite app_nil_r. split; [reflexivity | left; reflexivity].
Qed.

Lemma search_error_only_with_empty_text_witness :
  exists events,
    snd (search Scenario.flaky_world (mkWebSearcher "key") "Globex"
           Scenario.default_prompt []) = [] +++ events
    /\ (sidebar_errors events = []
        \/ (fst (search Scenario.flaky_world (mkWebSearcher "key") "Globex"
                   Scenario.default_prompt []) = Returns ""
            /\ exists text,
                 sidebar_errors events
                 = ["Error during web search: " ++ text])).
Proof.
  apply (search_error_only_with_empty_text Scenario.flaky_world
           (mkWebSearcher "key") "Globex" Scenario.default_prompt []).
  vm_compute. reflexivity.
Defined.

(** X4.  [extract_information] raises only what formatting the prompt
    raises, and then before anything else happens: the history is
    unchanged, no completion request is made and nothing is shown. *)
Theorem extract_information_raises_only_from_format
    self entity prompt search_results h e h' :
  extract_information self entity prompt search_results h = (Raises e, h') ->
  str_format prompt entity = Raises e /\ h' = h.
Proof.
  intros H.
  destruct (extract_information_shape _ _ _ _ _ _ _ H)
    as [(formatted & text & _ & Ho & _) | (_ & -> & Ho)]; [discriminate | ].
  split; [ | reflexivity].
  destruct (str_format prompt entity); try discriminate.
  inversion Ho; reflexivity.
Qed.

Lemma extract_information_raises_only_from_format_witness :
  str_format Scenario.stray_brace_prompt "Acme Corp"
  = Raises (mkExc ValueError "Single '}' encountered in format string")
  /\ @nil Event = [].
Proof.
  apply (extract_information_raises_only_from_format
           (mkLLMProcessor Scenario.jane_client) "Acme Corp"
           Scenario.stray_brace_prompt "Jane Doe is the CEO." []).
  vm_compute. reflexivity.
Defined.

(** X5.  A text that [extract_information] returns has no whitespace at
    either end; exactly one completion request was made for it, with the
    formatted prompt and the search text it was given; and a message was
    shown in the sidebar only if the text is empty. *)
Theorem extract_information_result_trimmed
    self entity prompt search_results h text h' :
  extract_information self entity prompt search_results h = (Returns text, h') ->
  trimmed text
  /\ exists formatted events,
       str_format prompt entity = Returns formatted
       /\ h' = h +++ events
       /\ chat_requests events = [extraction_request formatted search_results]
       /\ (sidebar_errors events = []
           \/ (text = ""
               /\ exists message,
                    sidebar_errors events
                    = ["Error during LLM extraction: " ++ message])).
Proof.
  intros H.
  destruct (extract_information_shape _ _ _ _ _ _ _ H)
    as [(formatted & text' & Hf & Ho & Ht & Hcase) | (_ & _ & Ho)].
  - inversion Ho; subst text'. split; [exact Ht | ].
    exists formatted.
    destruct Hcase as [-> | (message & -> & ->)].
    + eexists. split; [exact Hf | split; [reflexivity | ] ].
      split; [reflexivity | left; reflexivity].
    + eexists. split; [exact Hf | split; [reflexivity | ] ].
      split; [reflexivity | right]. split; [reflexivity | ].
      exists message. reflexivity.
  - destruct (str_format prompt entity); discriminate.
Qed.

Lemma extract_information_result_trimmed_witness :
  trimmed "Jane Doe"
  /\ exists formatted events,
       str_format Scenario.default_prompt "Acme Corp" = Returns formatted
       /\ [ChatCreate (extraction_request "Who is the ceo of Acme Corp?"
                         "Jane Doe is the CEO.")]
          = [] +++ events
       /\ chat_requests events
          = [extraction_request formatted "Jane Doe is the CEO."]
       /\ (sidebar_errors events = []
           \/ ("Jane Doe" = ""
               /\ exists message,
                    sidebar_errors events
                    = ["Error during LLM extraction: " ++ message])).
Proof.
  apply (extract_information_result_trimmed
           (mkLLMProcessor Scenario.jane_client) "Acme Corp"
           Scenario.default_prompt "Jane Doe is the CEO." []).
  vm_compute. reflexivity.
Defined.

(** X6.  Answers without a usable text.  When the completion service
    returns no choice at all, or a first choice whose content is [None],
    [extract_information] shows the IndexError or the AttributeError in
    the sidebar and returns the empty string; when the content is
    nothing but whitespace it returns the empty string and shows
    nothing. *)
Theorem extract_information_empty_answers
    self entity prompt search_results h formatted :
  str_format prompt entity = Returns formatted ->
  (completions (groq_client self) h
     (extraction_request formatted search_results) = CreateReturns [] ->
   extract_information self entity prompt search_results h
   = (Returns "",
      h +++ [ChatCreate (extraction_request formatted search_results);
             SidebarError
               "Error during LLM extraction: list index out of range"]))
  /\ (forall rest,
        completions (groq_client self) h
          (extraction_request formatted search_results)
        = CreateReturns ({| message_content := None |} :: rest) ->
        extract_information self entity prompt search_results h
        = (Returns "",
           h +++ [ChatCreate (extraction_request formatted search_results);
                  SidebarError
                    "Error during LLM extraction: 'NoneType' object has no attribute 'strip'"]))
  /\ (forall content rest,
        completions (groq_client self) h
          (extraction_request formatted search_results)
        = CreateReturns ({| message_content := Some content |} :: rest) ->
        all_space content = true ->
        extract_information self entity prompt search_results h
        = (Returns "",
           h +++ [ChatCreate (extraction_request formatted search_results)])).
Proof.
  intros Hf. rewrite (extract_information_unfold _ _ _ _ _ _ Hf). cbv zeta.
  split; [ | split].
  - intros ->. reflexivity.
  - intros rest ->. reflexivity.
  - intros content rest -> Hspace. cbn [message_content].
    rewrite (strip_all_space _ Hspace). reflexivity.
Qed.

Lemma extract_information_empty_answers_witness :
  extract_information
    (mkLLMProcessor (mkGroqClient (fun _ _ => CreateReturns [])))
    "Acme Corp" Scenario.default_prompt "Jane Doe is the CEO." []
  = (Returns "",
     [] +++ [ChatCreate (extraction_request "Who is the ceo of Acme Corp?"
                           "Jane Doe is the CEO.");
             SidebarError
               "Error during LLM extraction: list index out of range"]).
Proof.
  apply (proj1 (extract_information_empty_answers
                  (mkLLMProcessor (mkGroqClient (fun _ _ => CreateReturns [])))
                  "Acme Corp" Scenario.default_prompt "Jane Doe is the CEO." []
                  "Who is the ceo of Acme Corp?" eq_refl)).
  reflexivity.
Defined.

(** ** Further properties of the loop *)

(** X7.  The loop has no handler of its own.  In a run on
    [pre ++ entity :: post] that reaches [entity]: if the search for
    [entity] raises, [process_entities] raises the same exception, the
    history ends where that search ended, the rows built so far are not
    returned and the entities after it are not processed. *)
Theorem process_entities_aborts_when_search_raises
    w self prompt pre entity post h results hE e hS :
  run_before w self prompt pre entity post h = (Returns results, hE) ->
  search w (web_searcher self) entity prompt
    (hE +++ [Progress (progress_at pre entity post)]) = (Raises e, hS) ->
  process_entities w self (pre ++ entity :: post) prompt h = (Raises e, hS).
Proof.
  unfold run_before, process_entities, progress_at. intros Hpre Hsearch.
  cbv zeta. rewrite for_enumerate_app, Hpre.
  cbn [for_enumerate]. unfold bind. rewrite Z.add_0_l.
  rewrite (loop_body_unfold _ _ _ _ _ _ _ _
             (entity_count_positive pre entity post)).
  rewrite Hsearch. reflexivity.
Qed.

Lemma process_entities_aborts_when_search_raises_witness :
  process_entities Scenario.null_snippet_world
    (Scenario.processor Scenario.jane_client)
    ([] ++ "Acme Corp" :: ["Globex"]) Scenario.default_prompt []
  = (Raises (mkExc TypeError
       "sequence item 0: expected str instance, NoneType found"),
     [Progress (1 # 2);
      HttpGet search_url
        {| q := "Who is the ceo of Acme Corp?"; api_key := "key"; num := 5 |}]).
Proof.
  apply (process_entities_aborts_when_search_raises
           Scenario.null_snippet_world (Scenario.processor Scenario.jane_client)
           Scenario.default_prompt [] "Acme Corp" ["Globex"] [] [] []).
  - reflexivity.
  - vm_compute. reflexivity.
Defined.

(** X8.  An exception that leaves [process_entities] was raised by a
    search, never by the division, the progress bar, the extraction or
    the pause: the entities before it were processed, the search for the
    next one raised this exception and left this history, and the
    exception is no [RequestException]. *)
Theorem process_entities_raises_only_from_search
    w self entities prompt h e h' :
  process_entities w self entities prompt h = (Raises e, h') ->
  is_request_exception e = false
  /\ exists pre entity post results hE,
       entities = (pre ++ entity :: post)%list
       /\ run_before w self prompt pre entity post h = (Returns results, hE)
       /\ search w (web_searcher self) entity prompt
            (hE +++ [Progress (progress_at pre entity post)])
          = (Raises e, h').
Proof.
  unfold process_entities. cbv zeta. intros H.
  destruct entities as [|first rest]; [discriminate | ].
  destruct (for_enumerate_raises _ _ _ _ _
              (entity_count_positive [] first rest) _ _ _ _ _ H)
    as (pre & entity & post & rows & hE & Heq & Hpre & Hsearch).
  change (([] ++ first :: rest)%list) with (first :: rest) in Hpre, Hsearch.
  rewrite Z.add_0_l in Hsearch.
  split.
  - destruct (search_shape _ _ _ _ _ _ _ Hsearch)
      as [(query & _ & [(_ & Hc) | (text & _ & Ho)]) | (_ & _ & Hc & _)];
      try discriminate; apply Hc; reflexivity.
  - exists pre, entity, post, rows, hE.
    unfold run_before, progress_at. rewrite <- Heq. auto.
Qed.

Lemma process_entities_raises_only_from_search_witness :
  is_request_exception
    (mkExc TypeError "sequence item 0: expected str instance, NoneType found")
  = false
  /\ exists pre entity post results hE,
       ["Acme Corp"; "Globex"] = (pre ++ entity :: post)%list
       /\ run_before Scenario.null_snippet_world
            (Scenario.processor Scenario.jane_client) Scenario.default_prompt
            pre entity post [] = (Returns results, hE)
       /\ search Scenario.null_snippet_world (mkWebSearcher "key") entity
            Scenario.default_prompt
            (hE +++ [Progress (progress_at pre entity post)])
          = (Raises (mkExc TypeError
               "sequence item 0: expected str instance, NoneType found"),
             [Progress (1 # 2);
              HttpGet search_url
                {| q := "Who is the ceo of Acme Corp?";
                   api_key := "key"; num := 5 |}]).
Proof.
  apply (process_entities_raises_only_from_search
           Scenario.null_snippet_world (Scenario.processor Scenario.jane_client)
           ["Acme Corp"; "Globex"] Scenario.default_prompt []).
  vm_compute. reflexivity.
Defined.

(** The facts of [for_enumerate_trace] for a whole run. *)
Lemma process_entities_trace w self entities prompt h rows h' :
  process_entities w self entities prompt h = (Returns rows, h') ->
  exists queries events,
    Forall2 (fun entity query => str_format prompt entity = Returns query)
      entities queries
    /\ h' = h +++ events
    /\ progress_values events
       = map (fun i => Qmake (Z.of_nat i + 1) (Z.to_pos (len entities)))
           (seq 0 (length entities))
    /\ get_requests events
       = map (fun query =>
                (search_url, search_params (web_searcher self) query))
           queries
    /\ sleeps events = repeat (1 # 2) (length entities)
    /\ Forall (fun row => trimmed (Extracted_Information row)) rows.
Proof.
  unfold process_entities. cbv zeta. intros H.
  destruct entities as [|first rest].
  - simpl in H. inversion H; subst. exists [], [].
    rewrite app_nil_r. repeat split; auto.
  - destruct (for_enumerate_trace _ _ _ _ _
                (entity_count_positive [] first rest) _ _ _ _ _ H)
      as (queries & events & Hq & -> & Hp & Hg & Hs & Hrows).
    exists queries, events.
    change (([] ++ first :: rest)%list) with (first :: rest) in Hp.
    split; [exact Hq | split; [reflexivity | ] ].
    split; [ | split; [exact Hg | split; [exact Hs | apply Hrows; constructor] ] ].
    rewrite Hp. apply map_ext. intros i. f_equal. lia.
Qed.

(** X9.  A run that returns has sent exactly one GET per entity, in the
    order of the input, duplicates included, each to the search address
    with the prompt formatted for that entity as [q], the key of the
    searcher and [num] 5. *)
Theorem process_entities_one_get_per_entity
    w self entities prompt h rows h' :
  process_entities w self entities prompt h = (Returns rows, h') ->
  exists queries,
    Forall2 (fun entity query => str_format prompt entity = Returns query)
      entities queries
    /\ get_requests h'
       = (get_requests h
          ++ map (fun query =>
                    ("https://serpapi.com/search",
                     {| q := query;
                        api_key := serpapi_key (web_searcher self);
                        num := 5 |}))
               queries)%list.
Proof.
  intros H.
  destruct (process_entities_trace _ _ _ _ _ _ _ H)
    as (queries & events & Hq & -> & _ & Hg & _).
  exists queries. split; [exact Hq | ].
  rewrite get_requests_app, Hg. reflexivity.
Qed.

Lemma process_entities_one_get_per_entity_witness :
  exists queries,
    Forall2 (fun entity query =>
               str_format Scenario.default_prompt entity = Returns query)
      ["Globex"; "Acme Corp"; "Globex"] queries
    /\ get_requests
         (snd (process_entities Scenario.acme_world
                 (Scenario.processor Scenario.jane_client)
                 ["Globex"; "Acme Corp"; "Globex"] Scenario.default_prompt []))
       = (get_requests []
          ++ map (fun query =>
                    ("https://serpapi.com/search",
                     {| q := query; api_key := "key"; num := 5 |}))
               queries)%list.
Proof.
  apply (process_entities_one_get_per_entity Scenario.acme_world
           (Scenario.processor Scenario.jane_client)
           ["Globex"; "Acme Corp"; "Globex"] Scenario.default_prompt []
           [{| Entity := "Globex"; Extracted_Information := "No data found" |};
            {| Entity := "Acme Corp"; Extracted_Information := "Jane Doe" |};
            {| Entity := "Globex"; Extracted_Information := "No data found" |}]).
  vm_compute. reflexivity.
Defined.




(** X11.  A run that returns has paused once per entity, half a second
    each time, and not otherwise. *)
Theorem process_entities_pauses w self entities prompt h rows h' :
  process_entities w self entities prompt h = (Returns rows, h') ->
  sleeps h' = (sleeps h ++ repeat (1 # 2) (length entities))%list.
Proof.
  intros H.
  destruct (process_entities_trace _ _ _ _ _ _ _ H)
    as (queries & events & _ & -> & _ & _ & Hs & _).
  rewrite sleeps_app, Hs. reflexivity.
Qed.

Lemma process_entities_pauses_witness :
  sleeps
    (snd (process_entities Scenario.flaky_world
            (Scenario.processor Scenario.failing_client)
            ["Acme Corp"; "Globex"; "Initech"] Scenario.default_prompt []))
  = (sleeps [] ++ repeat (1 # 2) 3)%list.
Proof.
  apply (process_entities_pauses Scenario.flaky_world
           (Scenario.processor Scenario.failing_client)
           ["Acme Corp"; "Globex"; "Initech"] Scenario.default_prompt []
           [{| Entity := "Acme Corp"; Extracted_Information := "" |};
            {| Entity := "Globex"; Extracted_Information := "No data found" |};
            {| Entity := "Initech"; Extracted_Information := "" |}]).
  vm_compute. reflexivity.
Defined.



(** X13.  No row of a returned result has a value with whitespace at
    either end: a value is the placeholder [No data found], a stripped
    answer, or the empty string. *)
Theorem process_entities_rows_trimmed w self entities prompt h rows h' :
  process_entities w self entities prompt h = (Returns rows, h') ->
  Forall (fun row =>
            starts_with_space (Extracted_Information row) = false
            /\ ends_with_space (Extracted_Information row) = false)
    rows.
Proof.
  intros H.
  destruct (process_entities_trace _ _ _ _ _ _ _ H)
    as (queries & events & _ & _ & _ & _ & _ & Hrows).
  exact Hrows.
Qed.

Lemma process_entities_rows_trimmed_witness :
  Forall (fun row =>
            starts_with_space (Extracted_Information row) = false
            /\ ends_with_space (Extracted_Information row) = false)
    [{| Entity := "Acme Corp"; Extracted_Information := "Jane Doe" |};
     {| Entity := "Globex"; Extracted_Information := "No data found" |}].
Proof.
  apply (process_entities_rows_trimmed Scenario.acme_world
           (Scenario.processor
              (mkGroqClient (fun _ _ =>
                 CreateReturns [mkChoice (Some ("  Jane Doe " ++ newline))])))
           ["Acme Corp"; "Globex"] Scenario.default_prompt []
           _ (snd (process_entities Scenario.acme_world
                     (Scenario.processor
                        (mkGroqClient (fun _ _ =>
                           CreateReturns
                             [mkChoice (Some ("  Jane Doe " ++ newline))])))
                     ["Acme Corp"; "Globex"] Scenario.default_prompt []))).
  vm_compute. reflexivity.
Defined.

(** ** Properties of the loaders *)

(** X14.  [load_csv] never raises.  Either reading the upload, decoding
    it and parsing it all succeed, and it returns the frame and shows
    nothing; or it shows the text of the first exception in the sidebar,
    after [Error reading CSV file: ], and returns [None]. *)
Theorem load_csv_fails_softly (pd : Tables) (uploaded_file : UploadedFile)
    (h : History) :
  (exists raw text frame,
     file_read uploaded_file = inr raw
     /\ decode_utf8 pd raw = inr text
     /\ read_csv pd text = inr frame
     /\ load_csv pd uploaded_file h = (Returns (Some frame), h))
  \/ (exists e,
        load_csv pd uploaded_file h
        = (Returns None,
           h +++ [SidebarError ("Error reading CSV file: " ++ exc_text e)])
        /\ (file_read uploaded_file = inl e
            \/ exists raw,
                 file_read uploaded_file = inr raw
                 /\ (decode_utf8 pd raw = inl e
                     \/ exists text,
                          decode_utf8 pd raw = inr text
                          /\ read_csv pd text = inl e))).
Proof.
  unfold load_csv, try_except, bind, lift, of_result, st_sidebar_error,
    emit, ret, is_exception.
  destruct (file_read uploaded_file) as [e | raw] eqn:Hr.
  - right. exists e. split; [reflexivity | left; reflexivity].
  - destruct (decode_utf8 pd raw) as [e | text] eqn:Hd.
    + right. exists e. split; [reflexivity | right].
      exists raw. split; [reflexivity | left; exact Hd].
    + destruct (read_csv pd text) as [e | frame] eqn:Hp.
      * right. exists e. split; [reflexivity | right].
        exists raw. split; [reflexivity | right].
        exists text. split; [exact Hd | exact Hp].
      * left. exists raw, text, frame. auto.
Qed.

(** X15.  [load_google_sheet] never raises: it returns a frame and
    shows nothing, or it returns [None] after showing one message in
    the sidebar, the text of an exception after
    [Error connecting to Google Sheet: ]. *)
Theorem load_google_sheet_fails_softly (g : Sheets) (pd : Tables)
    (sheet_url : string) (h : History) :
  exists result h',
    load_google_sheet g pd sheet_url h = (Returns result, h')
    /\ match result with
       | Some _ => h' = h
       | None =>
           exists e,
             h' = h +++ [SidebarError
                           ("Error connecting to Google Sheet: " ++ exc_text e)]
       end.
Proof.
  unfold load_google_sheet, try_except, bind, lift, of_result, pop_first,
    st_sidebar_error, emit, ret, is_exception.
  destruct (from_service_account_file g _ _) as [e | creds];
    [do 2 eexists; split; [reflexivity | exists e; reflexivity] | ].
  destruct (authorize g creds) as [e | client];
    [do 2 eexists; split; [reflexivity | exists e; reflexivity] | ].
  destruct (open_by_url g client sheet_url) as [e | spreadsheet];
    [do 2 eexists; split; [reflexivity | exists e; reflexivity] | ].
  destruct (sheet1 g spreadsheet) as [e | sheet];
    [do 2 eexists; split; [reflexivity | exists e; reflexivity] | ].
  destruct (get_all_values g sheet) as [e | values];
    [do 2 eexists; split; [reflexivity | exists e; reflexivity] | ].
  destruct values as [|headers data];
    [do 2 eexists; split; [reflexivity | eexists; reflexivity] | ].
  cbn [fst snd].
  destruct (new_frame pd data headers) as [e | frame];
    [do 2 eexists; split; [reflexivity | exists e; reflexivity] | ].
  do 2 eexists. split; reflexivity.
Qed.

(** X16.  Once the values of the first worksheet are fetched, the
    first row is taken out as the column names and the other rows are
    the data the frame is built from.  A worksheet with no row at all
    gives [None] and the message of the IndexError of [pop]; a failure
    to build the frame gives [None] and its message. *)
Theorem load_google_sheet_first_row_is_header (g : Sheets) (pd : Tables)
    (sheet_url : string) (h : History) creds client spreadsheet sheet values :
  from_service_account_file g "credentials.json"
    ["https://www.googleapis.com/auth/spreadsheets"] = inr creds ->
  authorize g creds = inr client ->
  open_by_url g client sheet_url = inr spreadsheet ->
  sheet1 g spreadsheet = inr sheet ->
  get_all_values g sheet = inr values ->
  match values with
  | [] =>
      load_google_sheet g pd sheet_url h
      = (Returns None,
         h +++ [SidebarError
                  "Error connecting to Google Sheet: pop from empty list"])
  | headers :: data =>
      match new_frame pd data headers with
      | inr frame =>
          load_google_sheet g pd sheet_url h = (Returns (Some frame), h)
      | inl e =>
          load_google_sheet g pd sheet_url h
          = (Returns None,
             h +++ [SidebarError
                      ("Error connecting to Google Sheet: " ++ exc_text e)])
      end
  end.
Proof.
  intros Hc Ha Ho Hs Hv.
  unfold load_google_sheet, try_except, bind, lift, of_result, pop_first,
    st_sidebar_error, emit, ret, is_exception.
  rewrite Hc, Ha, Ho, Hs, Hv.
  destruct values as [|headers data]; [reflexivity | ].
  cbn [fst snd]. destruct (new_frame pd data headers); reflexivity.
Qed.

Lemma load_google_sheet_first_row_is_header_witness :
  load_google_sheet
    (LoaderScenario.sheet_with [["Company"]; ["Acme Corp"]; ["Globex"]])
    LoaderScenario.plain_tables "https://docs.google.com/spreadsheets/d/1" []
  = (Returns (Some (["Company"], [["Acme Corp"]; ["Globex"]])), []).
Proof.
  apply (load_google_sheet_first_row_is_header
           (LoaderScenario.sheet_with [["Company"]; ["Acme Corp"]; ["Globex"]])
           LoaderScenario.plain_tables
           "https://docs.google.com/spreadsheets/d/1" [] tt tt tt tt
           [["Company"]; ["Acme Corp"]; ["Globex"]]
           eq_refl eq_refl eq_refl eq_refl eq_refl).
Defined.

(** ** A property of every returned result *)

(** X17.  Whenever [process_entities] returns, whatever the searches
    and the extractions did, it returns exactly one row per entity, in
    the order of the input, duplicates included. *)
Theorem process_entities_returns_one_row_each
    w self entities prompt h rows h' :
  process_entities w self entities prompt h = (Returns rows, h') ->
  length rows = length entities /\ map Entity rows = entities.
Proof.
  unfold process_entities. cbv zeta. intros H.
  destruct (for_enumerate_rows _ _ _ _ _ _ _ _ _ _ H) as (tail & -> & Ht).
  simpl. split; [ | exact Ht].
  rewrite <- Ht, length_map. reflexivity.
Qed.

Lemma process_entities_returns_one_row_each_witness :
  length [{| Entity := "Globex"; Extracted_Information := "No data found" |};
          {| Entity := "Globex"; Extracted_Information := "No data found" |}]
  = length ["Globex"; "Globex"]
  /\ map Entity
       [{| Entity := "Globex"; Extracted_Information := "No data found" |};
        {| Entity := "Globex"; Extracted_Information := "No data found" |}]
     = ["Globex"; "Globex"].
Proof.
  apply (process_entities_returns_one_row_each Scenario.flaky_world
           (Scenario.processor Scenario.jane_client)
           ["Globex"; "Globex"] Scenario.default_prompt []
           _ (snd (process_entities Scenario.flaky_world
                     (Scenario.processor Scenario.jane_client)
                     ["Globex"; "Globex"] Scenario.default_prompt []))).
  vm_compute. reflexivity.
Defined.
